(** * meshery-linkerd: the Linkerd adapter's manifest applier, operation
    orchestrator, event stream and port extractor (linkerd/linkerd.go)

    A shallow embedding of [linkerd.go].  The Kubernetes cluster, the
    decoder, the file system and the external installer are an interface
    ([Env]) whose calls thread an explicit world; every call made through
    the discovery client, the dynamic client or the event stream is
    appended to a trace, so that the order of the calls can be stated.
    Methods are computations in a state monad with panics; a goroutine
    started by a method is returned by it as a value.  The calls to the
    logger are left out, except the one whose argument panics. *)

From Stdlib Require Import String Ascii List ZArith Bool Lia DecimalString.
Import ListNotations.
Local Open Scope list_scope.
Local Open Scope string_scope.
Local Set Warnings "-register-all".

(** ** Go's [strings] package, as far as linkerd.go uses it *)

Module strings.

(** [Contains s sub]: [sub] occurs somewhere in [s]. *)
Fixpoint Contains (s sub : string) : bool :=
  if String.prefix sub s then true
  else match s with
       | EmptyString => false
       | String _ s' => Contains s' sub
       end.

(** [Count s c]: number of occurrences of the one-character separator. *)
Fixpoint Count (s : string) (c : ascii) : nat :=
  match s with
  | EmptyString => 0
  | String a s' => (if Ascii.eqb a c then 1 else 0) + Count s' c
  end.

Definition HasSuffix (s suf : string) : bool :=
  let n := String.length s in
  let k := String.length suf in
  if Nat.leb k n then String.eqb (String.substring (n - k) k s) suf else false.

(** [splitFrom sep s skip acc]: [skip] characters of a matched separator
    are still to be dropped, [acc] is the fragment read so far. *)
Fixpoint splitFrom (sep s : string) (skip : nat) (acc : string) : list string :=
  match s with
  | EmptyString => [acc]
  | String c s' =>
      match skip with
      | S k => splitFrom sep s' k acc
      | O =>
          if String.prefix sep s
          then acc :: splitFrom sep s' (String.length sep - 1) EmptyString
          else splitFrom sep s' 0 (acc ++ String c EmptyString)
      end
  end.

Fixpoint explode (s : string) : list string :=
  match s with
  | EmptyString => []
  | String c s' => String c EmptyString :: explode s'
  end.

(** [strings.Split]: all fragments between the leftmost non-overlapping
    occurrences of [sep]; an empty [sep] splits after each character. *)
Definition Split (s sep : string) : list string :=
  match sep with
  | EmptyString => explode s
  | _ => splitFrom sep s 0 EmptyString
  end.

End strings.

Definition nl : string := String (ascii_of_nat 10) EmptyString.

(** ** Errors *)

(** The [metav1.StatusReason] values the code distinguishes. *)
Inductive StatusReason :=
| StatusReasonUnknown
| StatusReasonNotFound
| StatusReasonAlreadyExists
| StatusReasonForbidden
| StatusReasonInternalError.

(** A Go [error] value: a status error of the API server, a plain error
    ([errors.New], [fmt.Errorf]) or an error wrapped with a message
    ([errors.Wrap], [errors.Wrapf]).  The nil error is [None]. *)
Inductive error :=
| StatusError (reason : StatusReason) (message : string)
| errorString (message : string)
| withMessage (cause : error) (message : string).

Fixpoint Error (e : error) : string :=
  match e with
  | StatusError _ m => m
  | errorString m => m
  | withMessage c m => m ++ ": " ++ Error c
  end.

Module errors.
Definition New (m : string) : error := errorString m.
Definition Wrap (e : error) (m : string) : error := withMessage e m.
Definition Wrapf (e : error) (m : string) : error := withMessage e m.
End errors.

(** The predicates of [k8s.io/apimachinery/pkg/api/errors]; the code
    applies them to errors as the dynamic client returns them. *)
Module kubeerror.
Definition ReasonForError (e : error) : StatusReason :=
  match e with
  | StatusError r _ => r
  | _ => StatusReasonUnknown
  end.
Definition IsNotFound (e : error) : bool :=
  match ReasonForError e with StatusReasonNotFound => true | _ => false end.
Definition IsAlreadyExists (e : error) : bool :=
  match ReasonForError e with StatusReasonAlreadyExists => true | _ => false end.
End kubeerror.

(** ** Unstructured objects *)

(** The content of an [unstructured.Unstructured]: the values a JSON or
    YAML document decodes to ([interface{}] in the source). *)
Inductive Value :=
| VNil
| VBool (b : bool)
| VInt64 (n : Z)
| VFloat64 (bits : Z)
| VString (s : string)
| VSlice (l : list Value)
| VMap (m : list (string * Value)).

(** [map[string]interface{}], as an association list read at the first
    binding of a key. *)
Definition Object := list (string * Value).

Fixpoint lookup (k : string) (m : Object) : option Value :=
  match m with
  | [] => None
  | (k', v) :: m' => if String.eqb k k' then Some v else lookup k m'
  end.

Fixpoint store (k : string) (v : Value) (m : Object) : Object :=
  match m with
  | [] => [(k, v)]
  | (k', v') :: m' =>
      if String.eqb k k' then (k, v) :: m' else (k', v') :: store k v m'
  end.

Module unstructured.

Definition Unstructured := Object.

(** [&unstructured.Unstructured{}] *)
Definition empty : Unstructured := [].

Definition getNestedString1 (u : Unstructured) (f : string) : string :=
  match lookup f u with
  | Some (VString s) => s
  | _ => ""
  end.

Definition getNestedString2 (u : Unstructured) (f g : string) : string :=
  match lookup f u with
  | Some (VMap m) =>
      match lookup g m with
      | Some (VString s) => s
      | _ => ""
      end
  | _ => ""
  end.

(** [SetNestedField(obj, v, f, g)]; the error on a field [f] that is not a
    map is dropped by the setters, the object is left as it is. *)
Definition setNested2 (u : Unstructured) (f g : string) (v : Value) : Unstructured :=
  match lookup f u with
  | Some (VMap m) => store f (VMap (store g v m)) u
  | Some _ => u
  | None => store f (VMap [(g, v)]) u
  end.

Definition GetName (u : Unstructured) : string := getNestedString2 u "metadata" "name".
Definition GetNamespace (u : Unstructured) : string := getNestedString2 u "metadata" "namespace".
Definition GetKind (u : Unstructured) : string := getNestedString1 u "kind".
Definition GetAPIVersion (u : Unstructured) : string := getNestedString1 u "apiVersion".

Fixpoint remove (k : string) (m : Object) : Object :=
  match m with
  | [] => []
  | (k', v') :: m' => if String.eqb k k' then m' else (k', v') :: remove k m'
  end.

(** [RemoveNestedField(obj, f, g)] *)
Definition removeNested2 (u : Unstructured) (f g : string) : Unstructured :=
  match lookup f u with
  | Some (VMap m) => store f (VMap (remove g m)) u
  | _ => u
  end.

(** The setters remove the field when given the empty string. *)
Definition SetName (u : Unstructured) (name : string) : Unstructured :=
  if String.eqb name "" then removeNested2 u "metadata" "name"
  else setNested2 u "metadata" "name" (VString name).
Definition SetNamespace (u : Unstructured) (ns : string) : Unstructured :=
  if String.eqb ns "" then removeNested2 u "metadata" "namespace"
  else setNested2 u "metadata" "namespace" (VString ns).
Definition SetAnnotations (u : Unstructured) (a : list (string * string)) : Unstructured :=
  setNested2 u "metadata" "annotations" (VMap (map (fun kv => (fst kv, VString (snd kv))) a)).

(** [u.GetObjectKind().GroupVersionKind().Kind]: the zero kind when the
    apiVersion does not parse (more than one slash). *)
Definition GroupVersionKind_Kind (u : Unstructured) : string :=
  if Nat.leb 2 (strings.Count (GetAPIVersion u) "/"%char) then "" else GetKind u.

End unstructured.
Import unstructured.

(** ** Schema and REST mapping *)

Module schema.
Record GroupVersionKind := { Group : string; Version : string; Kind : string }.
Record GroupKind := { gkGroup : string; gkKind : string }.
Record GroupVersionResource := { gvrGroup : string; gvrVersion : string; Resource : string }.
Definition zeroGVK : GroupVersionKind := {| Group := ""; Version := ""; Kind := "" |}.
Definition zeroGVR : GroupVersionResource := {| gvrGroup := ""; gvrVersion := ""; Resource := "" |}.
End schema.

Module meta.
Inductive RESTScope := RESTScopeNamespace | RESTScopeRoot.
Definition Name (sc : RESTScope) : string :=
  match sc with
  | RESTScopeNamespace => "namespace"
  | RESTScopeRoot => "root"
  end.
(** [Scope] is an interface value: [None] is the nil interface of the
    zero mapping. *)
Record RESTMapping := {
  Resource : schema.GroupVersionResource;
  GroupVersionKind : schema.GroupVersionKind;
  Scope : option RESTScope }.
(** [&meta.RESTMapping{}] *)
Definition zero : RESTMapping :=
  {| Resource := schema.zeroGVR; GroupVersionKind := schema.zeroGVK; Scope := None |}.
End meta.

Module metav1.
Inductive DeletionPropagation :=
| DeletePropagationOrphan
| DeletePropagationBackground
| DeletePropagationForeground.
Record DeleteOptions := {
  GracePeriodSeconds : option Z;
  PropagationPolicy : option DeletionPropagation }.
End metav1.

(** ** The messages of the mesh service (package [meshes]) *)

Module meshes.
Inductive EventType := EventType_INFO | EventType_WARN | EventType_ERROR.
Record EventsResponse := {
  EventType_ : EventType;
  Summary : string;
  Details : string;
  evOperationId : string }.
Record ApplyRuleRequest := {
  OpName : string;
  Namespace : string;
  Username : string;
  CustomBody : string;
  DeleteOp : bool;
  OperationId : string }.
Record ApplyRuleResponse := { respError : string; respOperationId : string }.
End meshes.

(** ** The environment of the adapter *)

(** Calls made through the discovery client, the dynamic client and the
    event stream of the remote caller. *)
Inductive Call :=
| CallSend (event : meshes.EventsResponse)
| CallDiscovery
| CallCreate (res : schema.GroupVersionResource) (ns : option string) (data : Unstructured)
| CallDelete (res : schema.GroupVersionResource) (ns : option string) (name : string)
    (opts : metav1.DeleteOptions)
| CallGet (res : schema.GroupVersionResource) (ns : option string) (name : string)
| CallUpdate (res : schema.GroupVersionResource) (ns : option string) (data : Unstructured).

(** A call, the object it was made for (the object whose kind and name the
    source logs after the call; [None] where there is none) and the error
    it returned ([None] for nil). *)
Record Entry := { call : Call; subject : option Unstructured; failure : option error }.

(** What linkerd.go calls but does not define: the decoder of the composed
    scheme, discovery and REST mapping, the dynamic client, the operating
    system and the installer binary ([execute]), the manifest cache
    ([getYAML]) and the text templates.  [ns = None] is a call without
    [.Namespace(...)]. *)
Class Env := {
  World : Type;
  RuntimeObject : Type;
  GroupResources : Type;
  Template : Type;
  decode : string -> (RuntimeObject * schema.GroupVersionKind) + error;
  ToUnstructured : RuntimeObject -> Object + error;
  GetAPIGroupResources : World -> (GroupResources + error) * World;
  RESTMapping : GroupResources -> schema.GroupKind -> string -> meta.RESTMapping + error;
  clusterCreate : schema.GroupVersionResource -> option string -> Unstructured ->
                  World -> option error * World;
  clusterDelete : schema.GroupVersionResource -> option string -> string ->
                  metav1.DeleteOptions -> World -> option error * World;
  clusterGet : schema.GroupVersionResource -> option string -> string ->
               World -> (Unstructured + error) * World;
  clusterUpdate : schema.GroupVersionResource -> option string -> Unstructured ->
                  World -> option error * World;
  os_Setenv : string -> string -> World -> option error * World;
  os_Unsetenv : string -> World -> option error * World;
  os_TempDir : World -> string;
  time_Now_UnixNano : World -> Z * World;
  ioutil_WriteFile : string -> string -> World -> option error * World;
  path_Join : list string -> string;
  execute : list string -> World -> (string * string * option error) * World;
  getYAML : string -> string -> World -> (string + error) * World;
  template_ParseFiles : string -> World -> (Template + error) * World;
  template_Execute : Template -> list (string * string) -> string + error;
  stream_Send : meshes.EventsResponse -> World -> option error * World
}.

(** ** State, panics and the monad of the adapter's methods *)

(** A method or goroutine body ends normally, panics, or is blocked on a
    send to the full event channel. *)
Inductive outcome (A : Type) :=
| Done (a : A)
| Panic (msg : string)
| Blocked.
Arguments Done {A} a.
Arguments Panic {A} msg.
Arguments Blocked {A}.

Section Adapter.
Context {E : Env}.

(** The world, the calls made so far, the buffered channel
    [iClient.eventChan] (oldest first) and the milliseconds slept. *)
Record St := {
  world : World;
  trace : list Entry;
  eventChan : list meshes.EventsResponse;
  slept : Z }.

Definition M (A : Type) : Type := St -> outcome A * St.

Definition ret {A} (a : A) : M A := fun st => (Done a, st).

Definition bind {A B} (m : M A) (k : A -> M B) : M B :=
  fun st =>
    match m st with
    | (Done a, st') => k a st'
    | (Panic msg, st') => (Panic msg, st')
    | (Blocked, st') => (Blocked, st')
    end.

Definition panic {A} (msg : string) : M A := fun st => (Panic msg, st).

(** An effect of the environment that leaves no entry in the trace. *)
Definition lift {A} (f : World -> A * World) : M A :=
  fun st =>
    let (a, w) := f (world st) in
    (Done a, {| world := w; trace := trace st; eventChan := eventChan st; slept := slept st |}).

(** A call to the outside, recorded with its error. *)
Definition record {A} (c : Call) (subj : option Unstructured) (err : A -> option error)
    (f : World -> A * World) : M A :=
  fun st =>
    let (a, w) := f (world st) in
    (Done a, {| world := w;
                trace := trace st ++ [{| call := c; subject := subj; failure := err a |}];
                eventChan := eventChan st;
                slept := slept st |}).

(** [make(chan *meshes.EventsResponse, 100)] *)
Definition eventChanCap : nat := 100.

(** [iClient.eventChan <- ev] *)
Definition chanSend (ev : meshes.EventsResponse) : M unit :=
  fun st =>
    if Nat.ltb (List.length (eventChan st)) eventChanCap
    then (Done tt, {| world := world st; trace := trace st;
                      eventChan := eventChan st ++ [ev]; slept := slept st |})
    else (Blocked, st).

(** [select { case event := <-iClient.eventChan: ... default: }] *)
Definition chanTryRecv : M (option meshes.EventsResponse) :=
  fun st =>
    match eventChan st with
    | [] => (Done None, st)
    | ev :: rest =>
        (Done (Some ev), {| world := world st; trace := trace st;
                            eventChan := rest; slept := slept st |})
    end.

(** [time.Sleep(ms * time.Millisecond)] *)
Definition Sleep (ms : Z) : M unit :=
  fun st =>
    (Done tt, {| world := world st; trace := trace st;
                 eventChan := eventChan st; slept := (slept st + ms)%Z |}).

End Adapter.

Declare Scope go_scope.
Delimit Scope go_scope with go.
Notation "x <- c ;; k" := (bind c (fun x => k))
  (at level 61, c at next level, right associativity) : go_scope.
Notation "' pat <- c ;; k" := (bind c (fun x => match x with pat => k end))
  (at level 61, pat pattern, c at next level, right associativity) : go_scope.
Local Open Scope go_scope.

Definition errOf {A} (r : A + error) : option error :=
  match r with inl _ => None | inr e => Some e end.

(** ** applyConfigChange *)

(** The alternatives of the pattern [acceptedK8sTypes], in source order. *)
Definition acceptedK8sTypes : list string :=
  [ "Namespace"; "Role"; "ClusterRole"; "RoleBinding"; "ClusterRoleBinding";
    "ServiceAccount"; "MutatingWebhookConfiguration"; "Secret";
    "ValidatingWebhookConfiguration"; "APIService"; "PodSecurityPolicy";
    "ConfigMap"; "Service"; "Deployment"; "CronJob"; "CustomResourceDefinition" ].

(** [regexp.MatchString] for a pattern that is a group of literal
    alternatives without anchors: some alternative occurs in [s]. *)
Definition MatchString (alternatives : list string) (s : string) : bool :=
  existsb (fun a => strings.Contains s a) alternatives.

(** How one pass of the loop body ends: [Continue] goes on to the next
    fragment with the loop's two variables, [Return] leaves the function. *)
Inductive flow :=
| Continue (mappingNamespace : meta.RESTMapping) (dataNamespace : Unstructured)
| Return (err : option error).

Section ApplyConfigChange.
Context {E : Env}.

Definition Create (res : schema.GroupVersionResource) (ns : option string)
    (data : Unstructured) : M (option error) :=
  record (CallCreate res ns data) (Some data) (fun e => e) (clusterCreate res ns data).

(** [Delete res ns data opts] is the call [Delete(data.GetName(), opts)]. *)
Definition Delete (res : schema.GroupVersionResource) (ns : option string)
    (data : Unstructured) (opts : metav1.DeleteOptions) : M (option error) :=
  record (CallDelete res ns (GetName data) opts) (Some data) (fun e => e)
    (clusterDelete res ns (GetName data) opts).

Definition Get (res : schema.GroupVersionResource) (ns : option string)
    (name : string) : M (Unstructured + error) :=
  record (CallGet res ns name) None errOf (clusterGet res ns name).

Definition Update (res : schema.GroupVersionResource) (ns : option string)
    (data : Unstructured) : M (option error) :=
  record (CallUpdate res ns data) (Some data) (fun e => e) (clusterUpdate res ns data).

Definition Discovery : M (GroupResources + error) :=
  record CallDiscovery None errOf GetAPIGroupResources.

(** [err != nil && !benign(err)] *)
Definition fatal (benign : error -> bool) (err : option error) : bool :=
  match err with
  | Some e => negb (benign e)
  | None => false
  end.

(** The delete options of the three delete sites. *)
Definition rootDeleteOptions : metav1.DeleteOptions :=
  {| metav1.GracePeriodSeconds := Some 1%Z;
     metav1.PropagationPolicy := Some metav1.DeletePropagationForeground |}.
Definition foregroundDeleteOptions : metav1.DeleteOptions :=
  {| metav1.GracePeriodSeconds := None;
     metav1.PropagationPolicy := Some metav1.DeletePropagationForeground |}.

(** The body of the loop over the fragments (lines 405-504). *)
Definition applyDocument (deleteOpts : bool) (f : string)
    (mappingNamespace : meta.RESTMapping) (dataNamespace : Unstructured) : M flow :=
  if String.eqb f nl || String.eqb f "" then ret (Continue mappingNamespace dataNamespace)
  else
    match decode f with
    | inr _ => ret (Continue mappingNamespace dataNamespace)
    | inl (obj, groupVersionKind) =>
        if negb (MatchString acceptedK8sTypes (schema.Kind groupVersionKind))
        then ret (Continue mappingNamespace dataNamespace)
        else
          let gk := {| schema.gkGroup := schema.Group groupVersionKind;
                       schema.gkKind := schema.Kind groupVersionKind |} in
          groupResources <- Discovery ;;
          match groupResources with
          | inr _ => ret (Return None)
          | inl groupResources =>
              match RESTMapping groupResources gk (schema.Version groupVersionKind) with
              | inr _ => ret (Return None)
              | inl mapping =>
                  match ToUnstructured obj with
                  | inr err => ret (Return (Some err))
                  | inl unstructuredObj =>
                      let data : Unstructured := unstructuredObj in
                      match meta.Scope mapping with
                      | None => panic "invalid memory address or nil pointer dereference"
                      | Some scope =>
                          if String.eqb (meta.Name scope) "root" then
                            if deleteOpts then
                              if String.eqb (GroupVersionKind_Kind data) "Namespace"
                              then ret (Continue mapping data)
                              else
                                err <- Delete (meta.Resource mapping) None data
                                         rootDeleteOptions ;;
                                if fatal kubeerror.IsNotFound err then ret (Return err)
                                else ret (Continue mappingNamespace dataNamespace)
                            else
                              err <- Create (meta.Resource mapping) None data ;;
                              if fatal kubeerror.IsAlreadyExists err then ret (Return err)
                              else ret (Continue mappingNamespace dataNamespace)
                          else
                            if deleteOpts then
                              err <- Delete (meta.Resource mapping) (Some (GetNamespace data))
                                       data foregroundDeleteOptions ;;
                              if fatal kubeerror.IsNotFound err then ret (Return err)
                              else ret (Continue mappingNamespace dataNamespace)
                            else
                              err <- Create (meta.Resource mapping) (Some (GetNamespace data))
                                       data ;;
                              if fatal kubeerror.IsAlreadyExists err then ret (Return err)
                              else ret (Continue mappingNamespace dataNamespace)
                      end
                  end
              end
          end
    end.

(** The loop [for _, f := range sepYamlfiles]. *)
Fixpoint applyDocuments (deleteOpts : bool) (sepYamlfiles : list string)
    (mappingNamespace : meta.RESTMapping) (dataNamespace : Unstructured) : M flow :=
  match sepYamlfiles with
  | [] => ret (Continue mappingNamespace dataNamespace)
  | f :: rest =>
      r <- applyDocument deleteOpts f mappingNamespace dataNamespace ;;
      match r with
      | Continue mappingNamespace' dataNamespace' =>
          applyDocuments deleteOpts rest mappingNamespace' dataNamespace'
      | Return err => ret (Return err)
      end
  end.

(** The code after the loop (lines 506-519): "Remove the namespace at
    least". *)
Definition removeNamespace (deleteOpts : bool)
    (mappingNamespace : meta.RESTMapping) (dataNamespace : Unstructured) : M (option error) :=
  if deleteOpts && negb (String.eqb (GetName dataNamespace) "default") then
    err <- Delete (meta.Resource mappingNamespace) None dataNamespace
             foregroundDeleteOptions ;;
    match err with
    | Some e => ret (Some e)
    | None => ret None
    end
  else ret None.

Definition separator : string := nl ++ "---" ++ nl.

Definition applyConfigChange (deploymentYAML namespace : string) (deleteOpts : bool)
    : M (option error) :=
  let sepYamlfiles := strings.Split deploymentYAML separator in
  r <- applyDocuments deleteOpts sepYamlfiles meta.zero unstructured.empty ;;
  match r with
  | Return err => ret err
  | Continue mappingNamespace dataNamespace =>
      removeNamespace deleteOpts mappingNamespace dataNamespace
  end.

End ApplyConfigChange.

(** ** The client, the registry of operations and formatting *)

(** The fields of [Client] read by the methods below; the clientsets are
    behind [Env], the event channel is in the state. *)
Record Client := { contextName : string; kubeconfig : string }.

(** An entry of [supportedOps]. *)
Record supportedOperation := {
  name : string;
  opType : Z;
  templateName : string }.

(** The registry [supportedOps] and the constants of the package that
    linkerd.go uses; they are declared in another file of the package.
    A Go map has one binding per key: the registry is read at the first
    binding. *)
Class Registry := {
  supportedOps : list (string * supportedOperation);
  customOpCommand : string;
  installLinkerdCommand : string;
  installBooksAppCommand : string;
  installHTTPBinApp : string;
  installIstioBookInfoApp : string;
  installEmojiVotoCommand : string;
  booksAppInstallFile : string;
  booksAppLocalFile : string;
  emojivotoInstallFile : string;
  emojivotoLocalFile : string }.

Fixpoint lookupOp (k : string) (m : list (string * supportedOperation))
    : option supportedOperation :=
  match m with
  | [] => None
  | (k', v) :: m' => if String.eqb k k' then Some v else lookupOp k m'
  end.

Module fmt.
(** [%d] and [%v] of an int64 *)
Definition int64 (n : Z) : string := NilZero.string_of_int (Z.to_int n).
(** [%v] of a [[]int64]: the elements between brackets, separated by one
    space. *)
Definition int64s (l : list Z) : string :=
  "[" ++ String.concat " " (map int64 l) ++ "]".
End fmt.

Section Methods.
Context {E : Env} {R : Registry}.
Variable iClient : Client.

Definition getResource (res : schema.GroupVersionResource) (data : Unstructured)
    : M (Unstructured + error) :=
  r <- Get res (Some (GetNamespace data)) (GetName data) ;;
  match r with
  | inl data1 => ret (inl data1)
  | inr _ =>
      r <- Get res None (GetName data) ;;
      match r with
      | inl data1 => ret (inl data1)
      | inr err =>
          ret (inr (errors.Wrap err
            "unable to retrieve the resource with a matching name, while attempting to apply the config"))
      end
  end.

Definition updateResource (res : schema.GroupVersionResource) (data : Unstructured)
    : M (option error) :=
  err <- Update res (Some (GetNamespace data)) data ;;
  match err with
  | None => ret None
  | Some _ =>
      err <- Update res None data ;;
      match err with
      | None => ret None
      | Some err =>
          ret (Some (errors.Wrap err
            "unable to update resource with the given name, while attempting to apply the config"))
      end
  end.

Definition executeTemplate (username namespace templateName : string)
    : M (string * option error) :=
  tmpl <- lift (template_ParseFiles (path_Join ["linkerd"; "config_templates"; templateName])) ;;
  match tmpl with
  | inr err => ret ("", Some (errors.Wrapf err "unable to parse template"))
  | inl tmpl =>
      match template_Execute tmpl [("user_name", username); ("namespace", namespace)] with
      | inr err => ret ("", Some (errors.Wrapf err "unable to execute template"))
      | inl buf => ret (buf, None)
      end
  end.

Definition createNamespace (namespace : string) : M (option error) :=
  '(yamlFileContents, err) <- executeTemplate "" namespace "namespace.yml" ;;
  match err with
  | Some err => ret (Some err)
  | None => applyConfigChange yamlFileContents namespace false
  end.

Definition namespacesResource : schema.GroupVersionResource :=
  {| schema.gvrGroup := ""; schema.gvrVersion := "v1"; schema.Resource := "namespaces" |}.

(** In the branch that creates the namespace the inner [ns] shadows the
    outer one, which stays nil and is replaced after the branch; when the
    second lookup fails, [ns.GetName()] is called on a nil pointer. *)
Definition labelNamespaceForAutoInjection (namespace : string) : M (option error) :=
  let res := namespacesResource in
  let annotate (ns : option Unstructured) : M (option error) :=
    let ns := match ns with
              | Some ns => ns
              | None => SetName unstructured.empty namespace
              end in
    let ns := SetAnnotations ns [("linkerd.io/inject", "enabled")] in
    updateResource res ns in
  r <- getResource res (SetName unstructured.empty namespace) ;;
  match r with
  | inl ns => annotate (Some ns)
  | inr err =>
      if strings.HasSuffix (Error err) "not found" then
        err <- createNamespace namespace ;;
        match err with
        | Some err => ret (Some err)
        | None =>
            r <- getResource res (SetName unstructured.empty namespace) ;;
            match r with
            | inr _ => panic "invalid memory address or nil pointer dereference"
            | inl _ => annotate None
            end
        end
      else ret (Some err)
  end.

Definition executeInstall (arReq : meshes.ApplyRuleRequest) : M (option error) :=
  tmp <- lift (fun w => (os_TempDir w, w)) ;;
  now <- lift time_Now_UnixNano ;;
  let tmpKubeConfigFileLoc := path_Join [tmp; "kubeconfig_" ++ fmt.int64 now] in
  err <- lift (os_Setenv "KUBECONFIG" tmpKubeConfigFileLoc) ;;
  match err with
  | Some err => ret (Some err)
  | None =>
  err <- lift (ioutil_WriteFile tmpKubeConfigFileLoc (kubeconfig iClient)) ;;
  match err with
  | Some err => ret (Some err)
  | None =>
  let args1 := ["--linkerd-namespace"; meshes.Namespace arReq] in
  let args1 := if negb (String.eqb (contextName iClient) "")
               then (args1 ++ ["--context"; contextName iClient])%list else args1 in
  let args1 := (args1 ++ ["--kubeconfig"; tmpKubeConfigFileLoc])%list in
  let preCheck := (args1 ++ ["check"; "--pre"])%list in
  '(_, _, err) <- lift (execute preCheck) ;;
  match err with
  | Some err => ret (Some err)
  | None =>
  let installArgs := (args1 ++ ["install"; "--ignore-cluster"])%list in
  '(yamlFileContents, er, err) <- lift (execute installArgs) ;;
  match err with
  | Some err => ret (Some err)
  | None =>
  if negb (String.eqb er "") then
    ret (Some (errorString
      ("received error while attempting to prepare install yaml: " ++ er)))
  else
  err <- applyConfigChange yamlFileContents (meshes.Namespace arReq) (meshes.DeleteOp arReq) ;;
  match err with
  | Some err => ret (Some err)
  | None =>
  err <- lift (os_Unsetenv "KUBECONFIG") ;;
  match err with
  | Some err => ret (Some err)
  | None => ret None
  end end end end end end.

Definition servicesResource : schema.GroupVersionResource :=
  {| schema.gvrGroup := ""; schema.gvrVersion := "v1"; schema.Resource := "services" |}.

(** The loop of [getSVCPort] over the port declarations. *)
Fixpoint nodePortsOf (ports : list Value) (nodePorts : list Z) : list Z :=
  match ports with
  | [] => nodePorts
  | port :: rest =>
      let p := match port with VMap p => p | _ => [] end in
      match lookup "nodePort" p with
      | Some np =>
          let npi := match np with VInt64 n => n | _ => 0%Z end in
          nodePortsOf rest (nodePorts ++ [npi])
      | None => nodePortsOf rest nodePorts
      end
  end.

Definition getSVCPort (svc namespace : string) : M (list Z + error) :=
  let ns := SetNamespace (SetName unstructured.empty svc) namespace in
  r <- getResource servicesResource ns ;;
  match r with
  | inr err => ret (inr (errors.Wrapf err "unable to get service details"))
  | inl ns =>
      let svcInst := ns in
      match lookup "spec" svcInst with
      | Some (VMap spec) =>
          let ports := match lookup "ports" spec with
                       | Some (VSlice ports) => ports
                       | _ => []
                       end in
          ret (inl (nodePortsOf ports []))
      | _ => panic "interface conversion: interface {} is not map[string]interface {}"
      end
  end.

End Methods.

(** ** ApplyOperation *)

(** The variables of [ApplyOperation] that the cases of its switch set and
    the goroutine of the sample applications reads. *)
Record Vars := { yamlFileContents : string; appName : string; svcName : string }.

Section Operations.
Context {E : Env} {R : Registry}.
Variable iClient : Client.

(** The body of a goroutine started with [go func() { ... }()]. *)
Definition Task : Type := M unit.

Definition event (arReq : meshes.ApplyRuleRequest) (t : meshes.EventType)
    (summary details : string) : meshes.EventsResponse :=
  {| meshes.EventType_ := t;
     meshes.Summary := summary;
     meshes.Details := details;
     meshes.evOperationId := meshes.OperationId arReq |}.

Definition acknowledge (arReq : meshes.ApplyRuleRequest) : meshes.ApplyRuleResponse :=
  {| meshes.respError := ""; meshes.respOperationId := meshes.OperationId arReq |}.

(** The goroutine of the case [installLinkerdCommand] (lines 259-284). *)
Definition installGoroutine (arReq : meshes.ApplyRuleRequest) : Task :=
  let opName1 := if meshes.DeleteOp arReq then "removing" else "deploying" in
  err <- executeInstall iClient arReq ;;
  match err with
  | Some err =>
      chanSend (event arReq meshes.EventType_ERROR
                  ("Error while " ++ opName1 ++ " Linkerd") (Error err))
  | None =>
      let opName := if meshes.DeleteOp arReq then "removed" else "deployed" in
      chanSend (event arReq meshes.EventType_INFO
                  ("Linkerd " ++ opName ++ " successfully")
                  ("The latest version of Linkerd is now " ++ opName ++ "."))
  end.

(** [portMsg] of lines 367-372. *)
Definition portMsg (ports : list Z) : string :=
  if Nat.eqb (List.length ports) 1 then
    "The service is possibly available on port: " ++ fmt.int64s ports
  else if Nat.ltb 1 (List.length ports) then
    "The service is possibly available on one of the following ports: " ++ fmt.int64s ports
  else "".

(** [msg] of line 373. *)
Definition completionMessage (appName opName : string) (ports : list Z) : string :=
  appName ++ " is now " ++ opName ++ ". " ++ portMsg ports.

(** The end of the goroutine of the sample applications (lines 367-379). *)
Definition completed (arReq : meshes.ApplyRuleRequest) (appName opName : string)
    (ports : list Z) : M unit :=
  let msg := completionMessage appName opName ports in
  chanSend (event arReq meshes.EventType_INFO
              (appName ++ " " ++ opName ++ " successfully") msg).

(** The goroutine shared by the sample applications (lines 325-380). *)
Definition sampleGoroutine (arReq : meshes.ApplyRuleRequest) (v : Vars) : Task :=
  let opName1 := if meshes.DeleteOp arReq then "removing" else "deploying" in
  err <- (if negb (meshes.DeleteOp arReq)
          then labelNamespaceForAutoInjection (meshes.Namespace arReq)
          else ret None) ;;
  match err with
  | Some err =>
      chanSend (event arReq meshes.EventType_ERROR
                  ("Error while " ++ opName1 ++ " the canonical " ++ appName v) (Error err))
  | None =>
      err <- applyConfigChange (yamlFileContents v) (meshes.Namespace arReq)
               (meshes.DeleteOp arReq) ;;
      match err with
      | Some err =>
          chanSend (event arReq meshes.EventType_ERROR
                      ("Error while " ++ opName1 ++ " the canonical " ++ appName v)
                      (Error err))
      | None =>
          if meshes.DeleteOp arReq then completed arReq (appName v) "removed" []
          else
            r <- getSVCPort (svcName v) (meshes.Namespace arReq) ;;
            match r with
            | inr err =>
                chanSend (event arReq meshes.EventType_WARN
                  (appName v ++
                   " is deployed but unable to retrieve the port info for the service at the moment")
                  (Error err))
            | inl ports => completed arReq (appName v) "deployed" ports
            end
      end
  end.

(** The bodies of the four cases that fall through to the shared
    goroutine; each returns [inr err] where the source returns
    [nil, err]. *)
Definition caseBooksApp (v : Vars) : M (Vars + error) :=
  r <- lift (getYAML booksAppInstallFile booksAppLocalFile) ;;
  match r with
  | inr err => ret (inr err)
  | inl y => ret (inl {| yamlFileContents := y;
                         appName := "Linkerd Books App"; svcName := "webapp" |})
  end.

Definition caseHTTPBinApp (arReq : meshes.ApplyRuleRequest) (op : supportedOperation)
    (v : Vars) : M (Vars + error) :=
  if String.eqb (appName v) "" then
    '(y, err) <- executeTemplate (meshes.Username arReq) (meshes.Namespace arReq)
                   (templateName op) ;;
    match err with
    | Some err => ret (inr err)
    | None => ret (inl {| yamlFileContents := y;
                          appName := "HTTP Bin App"; svcName := "httpbin" |})
    end
  else ret (inl v).

Definition caseIstioBookInfoApp (arReq : meshes.ApplyRuleRequest) (op : supportedOperation)
    (v : Vars) : M (Vars + error) :=
  if String.eqb (appName v) "" then
    '(y, err) <- executeTemplate (meshes.Username arReq) (meshes.Namespace arReq)
                   (templateName op) ;;
    match err with
    | Some err => ret (inr err)
    | None => ret (inl {| yamlFileContents := y;
                          appName := "Istio canonical Book Info App";
                          svcName := "productpage" |})
    end
  else ret (inl v).

Definition caseEmojiVoto (v : Vars) : M (Vars + error) :=
  if String.eqb (appName v) "" then
    r <- lift (getYAML emojivotoInstallFile emojivotoLocalFile) ;;
    match r with
    | inr err => ret (inr err)
    | inl y => ret (inl {| yamlFileContents := y;
                           appName := "Emojivoto App"; svcName := "web-svc" |})
    end
  else ret (inl v).

(** [fallthrough]: the next case's body runs unless this one returned. *)
Definition fallthrough (c : M (Vars + error)) (next : Vars -> M (Vars + error))
    : M (Vars + error) :=
  r <- c ;;
  match r with
  | inl v => next v
  | inr err => ret (inr err)
  end.

(** The end of the last of the four cases: start the goroutine and
    acknowledge. *)
Definition startSample (arReq : meshes.ApplyRuleRequest) (c : M (Vars + error))
    : M ((meshes.ApplyRuleResponse + error) * option Task) :=
  r <- c ;;
  match r with
  | inr err => ret (inr err, None)
  | inl v => ret (inl (acknowledge arReq), Some (sampleGoroutine arReq v))
  end.

Definition zeroVars : Vars := {| yamlFileContents := ""; appName := ""; svcName := "" |}.

(** [ApplyOperation]: the reply, and the goroutine it started if any. *)
Definition ApplyOperation (arReq : option meshes.ApplyRuleRequest)
    : M ((meshes.ApplyRuleResponse + error) * option Task) :=
  match arReq with
  | None => ret (inr (errors.New "mesh client has not been created"), None)
  | Some arReq =>
      match lookupOp (meshes.OpName arReq) supportedOps with
      | None =>
          ret (inr (errorString
                 ("operation id: " ++ meshes.OperationId arReq ++ ", error: "
                  ++ meshes.OpName arReq ++ " is not a valid operation name")), None)
      | Some op =>
          if String.eqb (meshes.OpName arReq) customOpCommand
             && String.eqb (meshes.CustomBody arReq) ""
          then
            ret (inr (errorString
                   ("operation id: " ++ meshes.OperationId arReq
                    ++ ", error: yaml body is empty for " ++ meshes.OpName arReq
                    ++ " operation")), None)
          else if String.eqb (meshes.OpName arReq) customOpCommand then
            err <- applyConfigChange (meshes.CustomBody arReq) (meshes.Namespace arReq)
                     (meshes.DeleteOp arReq) ;;
            match err with
            | Some err => ret (inr err, None)
            | None => ret (inl (acknowledge arReq), None)
            end
          else if String.eqb (meshes.OpName arReq) installLinkerdCommand then
            ret (inl (acknowledge arReq), Some (installGoroutine arReq))
          else if String.eqb (meshes.OpName arReq) installBooksAppCommand then
            startSample arReq
              (fallthrough (fallthrough (fallthrough (caseBooksApp zeroVars)
                 (caseHTTPBinApp arReq op)) (caseIstioBookInfoApp arReq op)) caseEmojiVoto)
          else if String.eqb (meshes.OpName arReq) installHTTPBinApp then
            startSample arReq
              (fallthrough (fallthrough (caseHTTPBinApp arReq op zeroVars)
                 (caseIstioBookInfoApp arReq op)) caseEmojiVoto)
          else if String.eqb (meshes.OpName arReq) installIstioBookInfoApp then
            startSample arReq
              (fallthrough (caseIstioBookInfoApp arReq op zeroVars) caseEmojiVoto)
          else if String.eqb (meshes.OpName arReq) installEmojiVotoCommand then
            startSample arReq (caseEmojiVoto zeroVars)
          else ret (inr (errorString "please select a valid operation"), None)
      end
  end.

(** ** StreamEvents *)

Definition Send (event : meshes.EventsResponse) : M (option error) :=
  record (CallSend event) None (fun e => e) (stream_Send event).

(** One pass of the loop of [StreamEvents]: [Some (err, g)] when it
    returns [err] after starting the goroutine [g]. *)
Definition streamPass : M (option (error * Task)) :=
  ev <- chanTryRecv ;;
  match ev with
  | Some event =>
      err <- Send event ;;
      match err with
      | Some err => ret (Some (errors.Wrapf err "unable to send event", chanSend event))
      | None => _ <- Sleep 500 ;; ret None
      end
  | None => _ <- Sleep 500 ;; ret None
  end.

(** What is known of [StreamEvents] after a number of passes. *)
Inductive streamResult :=
| Looping
| Returned (err : error) (started : Task).

(** The loop [for { ... }] run for at most [passes] passes. *)
Fixpoint StreamEvents (passes : nat) : M streamResult :=
  match passes with
  | O => ret Looping
  | S n =>
      r <- streamPass ;;
      match r with
      | Some (err, g) => ret (Returned err g)
      | None => StreamEvents n
      end
  end.

End Operations.

(** ** A small cluster to run the adapter on *)

(** An executable environment in the manner of client-go's fake clients:
    the cluster is a store of objects addressed by resource, namespace and
    name; manifests are documents of [key: value] lines. *)
Module fake.

Record Cluster := {
  objects : list (string * string * Unstructured);
  forbidden : list string;
  manifests : list (string * string);
  installer : option string;
  streamBroken : bool }.

(** What the environment is configured with: the kinds registered in the
    scheme and whether the discovery endpoint answers. *)
Record Config := { registered : list string; discoveryUp : bool }.

Definition inb (s : string) (l : list string) : bool := existsb (String.eqb s) l.

Fixpoint fields (lines : list string) : list (string * string) :=
  match lines with
  | [] => []
  | line :: rest =>
      match strings.Split line ": " with
      | [k; v] => (k, v) :: fields rest
      | _ => fields rest
      end
  end.

Fixpoint field (k : string) (kv : list (string * string)) : option string :=
  match kv with
  | [] => None
  | (k', v) :: rest => if String.eqb k k' then Some v else field k rest
  end.

Definition groupVersion (apiVersion : string) : string * string :=
  match strings.Split apiVersion "/" with
  | [g; v] => (g, v)
  | _ => ("", apiVersion)
  end.

Definition decodeDoc (cfg : Config) (f : string)
    : (Unstructured * schema.GroupVersionKind) + error :=
  let kv := fields (strings.Split f nl) in
  match field "kind" kv, field "apiVersion" kv with
  | Some k, Some av =>
      if inb k (registered cfg) then
        let meta : Object :=
          (match field "name" kv with Some n => [("name", VString n)] | None => [] end ++
           match field "namespace" kv with Some n => [("namespace", VString n)] | None => [] end)%list in
        let '(g, v) := groupVersion av in
        inl ([("apiVersion", VString av); ("kind", VString k); ("metadata", VMap meta)],
             {| schema.Group := g; schema.Version := v; schema.Kind := k |})
      else inr (errorString ("no kind " ++ k ++ " is registered for version " ++ av))
  | _, _ => inr (errorString "Object 'Kind' is missing")
  end.

(** The resources the API server serves: kind, plural name, namespaced. *)
Definition served : list (string * string * bool) :=
  [ ("Namespace", "namespaces", false); ("ClusterRole", "clusterroles", false);
    ("ClusterRoleBinding", "clusterrolebindings", false);
    ("CustomResourceDefinition", "customresourcedefinitions", false);
    ("ConfigMap", "configmaps", true); ("Secret", "secrets", true);
    ("Service", "services", true); ("ServiceAccount", "serviceaccounts", true);
    ("Deployment", "deployments", true); ("Role", "roles", true);
    ("RoleBinding", "rolebindings", true); ("CronJob", "cronjobs", true);
    ("Pod", "pods", true) ].

Definition discover (cfg : Config) (w : Cluster)
    : (list (string * string * bool) + error) * Cluster :=
  if discoveryUp cfg then (inl served, w)
  else (inr (StatusError StatusReasonInternalError "the server is currently unable to handle the request"), w).

Fixpoint restMapping (gr : list (string * string * bool)) (gk : schema.GroupKind)
    (version : string) : meta.RESTMapping + error :=
  match gr with
  | [] => inr (errorString ("no matches for kind " ++ schema.gkKind gk))
  | (k, r, namespaced) :: rest =>
      if String.eqb k (schema.gkKind gk) then
        inl {| meta.Resource := {| schema.gvrGroup := schema.gkGroup gk;
                                   schema.gvrVersion := version;
                                   schema.Resource := r |};
               meta.GroupVersionKind := {| schema.Group := schema.gkGroup gk;
                                           schema.Version := version;
                                           schema.Kind := k |};
               meta.Scope := Some (if namespaced then meta.RESTScopeNamespace
                                   else meta.RESTScopeRoot) |}
      else restMapping rest gk version
  end.

Definition nsOf (ns : option string) : string :=
  match ns with Some n => n | None => "" end.

Definition same (r n name : string) (o : string * string * Unstructured) : bool :=
  let '(r', n', u) := o in
  String.eqb r r' && String.eqb n n' && String.eqb name (GetName u).

Definition withObjects (w : Cluster) (os : list (string * string * Unstructured)) : Cluster :=
  {| objects := os; forbidden := forbidden w; manifests := manifests w;
     installer := installer w; streamBroken := streamBroken w |}.

Definition notFound (name : string) : error :=
  StatusError StatusReasonNotFound (name ++ " not found").

Definition create (res : schema.GroupVersionResource) (ns : option string)
    (data : Unstructured) (w : Cluster) : option error * Cluster :=
  if inb (GetName data) (forbidden w) then
    (Some (StatusError StatusReasonForbidden (GetName data ++ " is forbidden")), w)
  else if existsb (same (schema.Resource res) (nsOf ns) (GetName data)) (objects w) then
    (Some (StatusError StatusReasonAlreadyExists (GetName data ++ " already exists")), w)
  else (None, withObjects w (objects w ++ [(schema.Resource res, nsOf ns, data)])).

Definition delete (res : schema.GroupVersionResource) (ns : option string)
    (name : string) (opts : metav1.DeleteOptions) (w : Cluster) : option error * Cluster :=
  if inb name (forbidden w) then
    (Some (StatusError StatusReasonForbidden (name ++ " is forbidden")), w)
  else if existsb (same (schema.Resource res) (nsOf ns) name) (objects w) then
    (None, withObjects w
             (filter (fun o => negb (same (schema.Resource res) (nsOf ns) name o)) (objects w)))
  else (Some (notFound name), w).

Definition get (res : schema.GroupVersionResource) (ns : option string)
    (name : string) (w : Cluster) : (Unstructured + error) * Cluster :=
  match find (same (schema.Resource res) (nsOf ns) name) (objects w) with
  | Some (_, _, u) => (inl u, w)
  | None => (inr (notFound name), w)
  end.

Definition update (res : schema.GroupVersionResource) (ns : option string)
    (data : Unstructured) (w : Cluster) : option error * Cluster :=
  if existsb (same (schema.Resource res) (nsOf ns) (GetName data)) (objects w) then
    (None, withObjects w
             (map (fun o => if same (schema.Resource res) (nsOf ns) (GetName data) o
                            then (schema.Resource res, nsOf ns, data) else o) (objects w)))
  else (Some (notFound (GetName data)), w).

Definition getManifest (k : string) (w : Cluster) : (string + error) * Cluster :=
  match field k (manifests w) with
  | Some y => (inl y, w)
  | None => (inr (errorString ("unable to read " ++ k)), w)
  end.

Definition runInstaller (args : list string) (w : Cluster)
    : (string * string * option error) * Cluster :=
  match installer w with
  | Some y => ((y, "", None), w)
  | None => (("", "", Some (errorString "exec: linkerd: executable file not found")), w)
  end.

#[export] Instance env (cfg : Config) : Env := {|
  World := Cluster;
  RuntimeObject := Unstructured;
  GroupResources := list (string * string * bool);
  Template := string;
  decode := decodeDoc cfg;
  ToUnstructured := fun o => inl o;
  GetAPIGroupResources := discover cfg;
  RESTMapping := restMapping;
  clusterCreate := create;
  clusterDelete := delete;
  clusterGet := get;
  clusterUpdate := update;
  os_Setenv := fun _ _ w => (None, w);
  os_Unsetenv := fun _ w => (None, w);
  os_TempDir := fun _ => "/tmp";
  time_Now_UnixNano := fun w => (0%Z, w);
  ioutil_WriteFile := fun _ _ w => (None, w);
  path_Join := String.concat "/";
  execute := runInstaller;
  getYAML := fun remote _ w => getManifest remote w;
  template_ParseFiles := fun p w => getManifest p w;
  template_Execute := fun t _ => inl t;
  stream_Send := fun _ w =>
    if streamBroken w then (Some (errorString "transport is closing"), w) else (None, w)
|}.

(** The registry of a deployment of the adapter. *)
#[export] Instance registry : Registry := {|
  supportedOps :=
    [ ("linkerd_install", {| name := "Latest version of Linkerd"; opType := 0; templateName := "" |});
      ("install_books_app", {| name := "Linkerd Books App"; opType := 1; templateName := "" |});
      ("install_http_bin", {| name := "HTTP Bin App"; opType := 1; templateName := "httpbin.yaml" |});
      ("install_istio_book_info", {| name := "Istio Book Info App"; opType := 1;
                                     templateName := "bookinfo.yaml" |});
      ("install_emojivoto_app", {| name := "Emojivoto App"; opType := 1; templateName := "" |});
      ("custom", {| name := "Custom YAML"; opType := 4; templateName := "" |}) ];
  customOpCommand := "custom";
  installLinkerdCommand := "linkerd_install";
  installBooksAppCommand := "install_books_app";
  installHTTPBinApp := "install_http_bin";
  installIstioBookInfoApp := "install_istio_book_info";
  installEmojiVotoCommand := "install_emojivoto_app";
  booksAppInstallFile := "booksapp.yml";
  booksAppLocalFile := "booksapp.yml";
  emojivotoInstallFile := "emojivoto.yml";
  emojivotoLocalFile := "emojivoto.yml"
|}.

Definition cluster0 : Cluster :=
  {| objects := []; forbidden := []; manifests := []; installer := None;
     streamBroken := false |}.

(** A state of the adapter on this environment. *)
Definition state (cfg : Config) (w : Cluster) (tr : list Entry)
    (ch : list meshes.EventsResponse) (ms : Z) : @St (env cfg) :=
  {| world := (w : @World (env cfg)); trace := tr; eventChan := ch; slept := ms |}.

(** The state before any call. *)
Definition start (cfg : Config) (w : Cluster) : @St (env cfg) := state cfg w [] [] 0.

(** A manifest document of [key: value] lines. *)
Definition doc (kind name namespace : string) : string :=
  "apiVersion: v1" ++ nl ++ "kind: " ++ kind ++ nl ++ "name: " ++ name
  ++ (if String.eqb namespace "" then "" else nl ++ "namespace: " ++ namespace).

Definition client : Client := {| contextName := ""; kubeconfig := "" |}.

End fake.

(** ** Inputs of the examples *)

Definition unknownRequest : meshes.ApplyRuleRequest :=
  {| meshes.OpName := "install_everything"; meshes.Namespace := "default";
     meshes.Username := "alice"; meshes.CustomBody := "";
     meshes.DeleteOp := false; meshes.OperationId := "op-7" |}.

Definition plainConfig : fake.Config :=
  {| fake.registered := ["Namespace"; "ConfigMap"; "Service"; "Deployment"; "Secret"];
     fake.discoveryUp := true |}.

(** A scheme that also registers the list kinds and Pod, as client-go's
    does. *)
Definition schemeConfig : fake.Config :=
  {| fake.registered := ["Namespace"; "ConfigMap"; "ConfigMapList"; "Service";
                         "Deployment"; "Secret"; "Pod"];
     fake.discoveryUp := true |}.

(** The discovery endpoint does not answer. *)
Definition downConfig : fake.Config :=
  {| fake.registered := ["Namespace"; "ConfigMap"; "Service"; "Deployment"; "Secret"];
     fake.discoveryUp := false |}.

Definition twoConfigMaps : string :=
  fake.doc "ConfigMap" "cm1" "ns1" ++ separator ++ fake.doc "ConfigMap" "cm2" "ns1".

Definition configMapThenNamespace : string :=
  fake.doc "ConfigMap" "cm1" "foo" ++ separator ++ fake.doc "Namespace" "foo" "".

Definition listThenConfigMap : string :=
  fake.doc "ConfigMapList" "all" "ns1" ++ separator ++ fake.doc "ConfigMap" "cm1" "ns1".

Definition oneConfigMap : string := fake.doc "ConfigMap" "cm1" "ns1".

(** A cluster that refuses to touch [cm1]. *)
Definition guardedCluster : fake.Cluster :=
  {| fake.objects := []; fake.forbidden := ["cm1"]; fake.manifests := [];
     fake.installer := None; fake.streamBroken := false |}.

(** ** Notions used in the statements *)

Section Notions.
Context {E : Env}.

(** No fragment of the batch is a Namespace document: none decodes to an
    object whose kind reads "Namespace". *)
Definition noNamespaceDocument (sepYamlfiles : list string) : bool :=
  forallb (fun f =>
    match decode f with
    | inl (obj, _) =>
        match ToUnstructured obj with
        | inl data => negb (String.eqb (GroupVersionKind_Kind data) "Namespace")
        | inr _ => true
        end
    | inr _ => true
    end) sepYamlfiles.

(** The entry is a delete call with the empty object name against the
    resource of the zero mapping. *)
Definition deletesNothing (e : Entry) : bool :=
  match call e with
  | CallDelete res None name _ =>
      String.eqb name "" && String.eqb (schema.Resource res) ""
      && String.eqb (schema.gvrGroup res) "" && String.eqb (schema.gvrVersion res) ""
  | _ => false
  end.

End Notions.

(** ** The Port Extractor, in the words of the specification *)







(** ** The event stream: notions and inputs *)


Definition deployedEvent : meshes.EventsResponse :=
  {| meshes.EventType_ := meshes.EventType_INFO;
     meshes.Summary := "Linkerd deployed successfully";
     meshes.Details := "The latest version of Linkerd is now deployed.";
     meshes.evOperationId := "op-1" |}.


(** ** The asynchronous operations: notions and inputs *)

Section AsynchronousNotions.
Context {E : Env} {R : Registry}.

(** The operations whose cases end in the shared goroutine. *)
Definition sampleCommands : list string :=
  [installBooksAppCommand; installHTTPBinApp; installIstioBookInfoApp;
   installEmojiVotoCommand].

(** The state after the event has been put on the channel. *)
Definition pushed (ev : meshes.EventsResponse) (st : St) : St :=
  {| world := world st; trace := trace st;
     eventChan := eventChan st ++ [ev]; slept := slept st |}.

Definition room (st : St) : Prop := List.length (eventChan st) < eventChanCap.

(** A computation that ends normally and neither calls the cluster nor
    touches the event channel. *)
Definition quiet {A} (m : M A) : Prop :=
  forall st, exists a st1,
    m st = (Done a, st1) /\ trace st1 = trace st /\ eventChan st1 = eventChan st.

(** [s0] is the state in which the goroutine of the sample applications
    reaches [applyConfigChange]: at once for a removal, after the
    namespace has been labelled without error for a deployment. *)
Definition prepared (arReq : meshes.ApplyRuleRequest) (s s0 : St) : Prop :=
  if meshes.DeleteOp arReq then s0 = s
  else labelNamespaceForAutoInjection (meshes.Namespace arReq) s = (Done None, s0).

End AsynchronousNotions.

Definition installRequest : meshes.ApplyRuleRequest :=
  {| meshes.OpName := "linkerd_install"; meshes.Namespace := "linkerd";
     meshes.Username := "alice"; meshes.CustomBody := "";
     meshes.DeleteOp := false; meshes.OperationId := "op-1" |}.

Definition booksRequest : meshes.ApplyRuleRequest :=
  {| meshes.OpName := "install_books_app"; meshes.Namespace := "books";
     meshes.Username := "alice"; meshes.CustomBody := "";
     meshes.DeleteOp := false; meshes.OperationId := "op-2" |}.

(** ** Batches: notions and inputs *)

Definition isCreate (c : Call) : bool :=
  match c with CallCreate _ _ _ => true | _ => false end.

Definition isDelete (c : Call) : bool :=
  match c with CallDelete _ _ _ _ => true | _ => false end.


(** The name of the object the call was made for. *)
Definition nameOf (e : Entry) : string :=
  match subject e with
  | Some data => GetName data
  | None => ""
  end.

Section BatchNotions.
Context {E : Env}.



End BatchNotions.

Definition defaultNamespaceOnly : string := fake.doc "Namespace" "default" "".

Definition namespaceThenConfigMap : string :=
  fake.doc "Namespace" "foo" "" ++ separator ++ fake.doc "ConfigMap" "cm1" "foo".

(** A cluster that holds the namespace [foo] and the ConfigMap [cm1] in
    it. *)
Definition fooCluster : fake.Cluster :=
  {| fake.objects :=
       [ ("namespaces", "", [("apiVersion", VString "v1"); ("kind", VString "Namespace");
                             ("metadata", VMap [("name", VString "foo")])]);
         ("configmaps", "foo", [("apiVersion", VString "v1"); ("kind", VString "ConfigMap");
                                ("metadata", VMap [("name", VString "cm1");
                                                   ("namespace", VString "foo")])]) ];
     fake.forbidden := []; fake.manifests := []; fake.installer := None;
     fake.streamBroken := false |}.

(** ** What a batch applies: notions *)

Definition isMutation (e : Entry) : bool := isCreate (call e) || isDelete (call e).

(** The create and delete calls of a trace, in order. *)
Definition mutations (tr : list Entry) : list Entry := filter isMutation tr.


(** The call went through: it returned nil, or the conflict the loop
    passes over (AlreadyExists for a create, NotFound for a delete). *)
Definition passedOver (e : Entry) : bool :=
  match failure e with
  | None => true
  | Some err =>
      if isCreate (call e) then kubeerror.IsAlreadyExists err
      else kubeerror.IsNotFound err
  end.



Section Plan.
Context {E : Env}.








End Plan.

(** A cluster that refuses to touch [cm2]. *)
Definition guardedSecond : fake.Cluster :=
  {| fake.objects := []; fake.forbidden := ["cm2"]; fake.manifests := [];
     fake.installer := None; fake.streamBroken := false |}.

Definition threeConfigMaps : string :=
  fake.doc "ConfigMap" "cm1" "ns1" ++ separator ++ fake.doc "ConfigMap" "cm2" "ns1"
  ++ separator ++ fake.doc "ConfigMap" "cm3" "ns1".

(** ** What a computation may touch: notions *)

Definition isDiscovery (c : Call) : bool :=
  match c with CallDiscovery => true | _ => false end.

Definition isGet (c : Call) : bool :=
  match c with CallGet _ _ _ => true | _ => false end.

Definition isUpdate (c : Call) : bool :=
  match c with CallUpdate _ _ _ => true | _ => false end.

Definition isSend (c : Call) : bool :=
  match c with CallSend _ => true | _ => false end.

(** The calls a batch may make: discovery, and creates in a create
    batch, deletes in a delete batch. *)
Definition batchCall (deleteOpts : bool) (e : Entry) : Prop :=
  isDiscovery (call e) = true \/
  (if deleteOpts then isDelete (call e) else isCreate (call e)) = true.

(** The calls of the dynamic and discovery clients that write nothing. *)
Definition readCall (e : Entry) : Prop := isGet (call e) = true.

Section FrameNotions.
Context {E : Env}.

(** [m] is never blocked; however it ends, it has left the event channel
    and the time slept as they were, and has only added calls that
    satisfy [P] to the trace. *)
Definition confined {A} (P : Entry -> Prop) (m : M A) : Prop :=
  forall st o st1,
    m st = (o, st1) ->
    o <> Blocked /\
    eventChan st1 = eventChan st /\ slept st1 = slept st /\
    exists new, trace st1 = (trace st ++ new)%list /\ Forall P new.

End FrameNotions.

(** ** Skipped documents: notions and inputs *)

Section SkipNotions.
Context {E : Env}.

(** The loop passes over the fragment before it resolves anything: the
    fragment is blank, does not decode, or its kind does not match the
    pattern. *)
Definition skipped (f : string) : bool :=
  String.eqb f nl || String.eqb f "" ||
  match decode f with
  | inl (_, gvk) => negb (MatchString acceptedK8sTypes (schema.Kind gvk))
  | inr _ => true
  end.

End SkipNotions.

(** A Pod, a document of an unregistered kind and a blank fragment. *)
Definition nothingToApply : string :=
  fake.doc "Pod" "p1" "ns1" ++ separator ++ fake.doc "Gadget" "g1" "ns1" ++ separator.

(** ** Lookups and labelling: notions and inputs *)

(** The annotations of an object. *)
Definition annotationsOf (u : Unstructured) : option Value :=
  match lookup "metadata" u with
  | Some (VMap m) => lookup "annotations" m
  | _ => None
  end.

(** The namespace [foo] as an administrator annotated it. *)
Definition annotatedNamespace : Unstructured :=
  [ ("apiVersion", VString "v1"); ("kind", VString "Namespace");
    ("metadata", VMap [("name", VString "foo");
                       ("annotations", VMap [("owner", VString "team-a")])]) ].

Definition annotatedCluster : fake.Cluster :=
  {| fake.objects := [("namespaces", "", annotatedNamespace)]; fake.forbidden := [];
     fake.manifests := []; fake.installer := None; fake.streamBroken := false |}.

(** The namespace template renders to a manifest that creates nothing. *)
Definition emptyTemplateCluster : fake.Cluster :=
  {| fake.objects := []; fake.forbidden := [];
     fake.manifests := [("linkerd/config_templates/namespace.yml", "")];
     fake.installer := None; fake.streamBroken := false |}.

(** ** The Port Extractor on malformed objects: notions and inputs *)

(** The port declaration has a node port that is not an integer. *)
Definition nodePortIllTyped (port : Value) : Prop :=
  exists p v, port = VMap p /\ lookup "nodePort" p = Some v /\ forall n, v <> VInt64 n.

(** An object stored as a service that has no spec. *)
Definition bareService : Unstructured :=
  [ ("apiVersion", VString "v1"); ("kind", VString "Service");
    ("metadata", VMap [("name", VString "web-svc"); ("namespace", VString "emojivoto")]) ].

Definition bareCluster : fake.Cluster :=
  {| fake.objects := [("services", "emojivoto", bareService)]; fake.forbidden := [];
     fake.manifests := []; fake.installer := None; fake.streamBroken := false |}.

(** Node ports written as text and as a fraction. *)
Definition oddPorts : list Value :=
  [ VMap [("port", VInt64 80); ("nodePort", VString "30080")];
    VMap [("nodePort", VFloat64 4629700416936869888)] ].

(** The calls labelling a namespace may make: reads, updates, and the
    discovery and create calls of a create batch. *)
Definition labelCall (e : Entry) : Prop :=
  isGet (call e) = true \/ isUpdate (call e) = true \/ batchCall false e.

(** The annotation that turns on automatic injection. *)
Definition injectAnnotation : Value := VMap [("linkerd.io/inject", VString "enabled")].

(** The executable environment with a cluster that cannot be reached:
    every read fails with a connection error. *)
Definition unreachableEnv : Env :=
  let base := fake.env plainConfig in
  {| World := @World base;
     RuntimeObject := @RuntimeObject base;
     GroupResources := @GroupResources base;
     Template := @Template base;
     decode := @decode base;
     ToUnstructured := @ToUnstructured base;
     GetAPIGroupResources := @GetAPIGroupResources base;
     RESTMapping := @RESTMapping base;
     clusterCreate := @clusterCreate base;
     clusterDelete := @clusterDelete base;
     clusterGet := fun _ _ _ w => (inr (errorString "dial tcp: connection refused"), w);
     clusterUpdate := @clusterUpdate base;
     os_Setenv := @os_Setenv base;
     os_Unsetenv := @os_Unsetenv base;
     os_TempDir := @os_TempDir base;
     time_Now_UnixNano := @time_Now_UnixNano base;
     ioutil_WriteFile := @ioutil_WriteFile base;
     path_Join := @path_Join base;
     execute := @execute base;
     getYAML := @getYAML base;
     template_ParseFiles := @template_ParseFiles base;
     template_Execute := @template_Execute base;
     stream_Send := @stream_Send base |}.

Definition unreachableStart : @St unreachableEnv :=
  {| world := (fake.cluster0 : @World unreachableEnv); trace := []; eventChan := [];
     slept := 0 |}.

(** ** Goroutines, replies and the registry: notions and inputs *)

Section EmitNotions.
Context {E : Env}.

(** However the goroutine ends, it has not slept; if it ends normally it
    has put exactly one event on the channel, and the event carries the
    operation id [id]; if it is blocked the channel is full and
    unchanged; if it panics the channel is unchanged. *)
Definition emitsOne (id : string) (m : M unit) : Prop :=
  forall st o st1,
    m st = (o, st1) ->
    slept st1 = slept st /\
    match o with
    | Done _ =>
        exists ev, eventChan st1 = (eventChan st ++ [ev])%list /\
                   meshes.evOperationId ev = id
    | Blocked =>
        eventChan st1 = eventChan st /\ eventChanCap <= List.length (eventChan st)
    | Panic _ => eventChan st1 = eventChan st
    end.

(** [healthy] holds of the world and is kept by every send, and in a
    healthy world a send succeeds. *)
Definition sendsSucceed (healthy : World -> Prop) : Prop :=
  forall ev w, healthy w ->
    fst (stream_Send ev w) = None /\ healthy (snd (stream_Send ev w)).

(** The state after the events have been sent, one pass each. *)
Fixpoint delivered (evs : list meshes.EventsResponse) (w : World) : World :=
  match evs with
  | [] => w
  | ev :: rest => delivered rest (snd (stream_Send ev w))
  end.

Definition sent (ev : meshes.EventsResponse) : Entry :=
  {| call := CallSend ev; subject := None; failure := None |}.

End EmitNotions.

(** The message [meshes.SupportedOperation]. *)
Record SupportedOperation := { Key : string; Value_ : string; Category : Z }.

Section RegistryNotions.
Context {R : Registry}.

(** [SupportedOperations]: one message per entry of the registry, in the
    order [visit] in which the [range] over the map yields the entries. *)
Definition SupportedOperations (visit : list (string * supportedOperation))
    : list SupportedOperation :=
  map (fun kv => {| Key := fst kv; Value_ := name (snd kv); Category := opType (snd kv) |})
      visit.

(** The operation names the switch of [ApplyOperation] has a case for. *)
Definition switchCases : list string :=
  [customOpCommand; installLinkerdCommand; installBooksAppCommand; installHTTPBinApp;
   installIstioBookInfoApp; installEmojiVotoCommand].

End RegistryNotions.

(** A registry with a key the switch of [ApplyOperation] has no case
    for. *)
Definition staleRegistry : Registry :=
  {| supportedOps :=
       [ ("custom", {| name := "Custom YAML"; opType := 4; templateName := "" |});
         ("linkerd_install", {| name := "Latest version of Linkerd"; opType := 0;
                                templateName := "" |});
         ("install_sock_shop", {| name := "Sock Shop"; opType := 1; templateName := "" |}) ];
     customOpCommand := "custom";
     installLinkerdCommand := "linkerd_install";
     installBooksAppCommand := "install_books_app";
     installHTTPBinApp := "install_http_bin";
     installIstioBookInfoApp := "install_istio_book_info";
     installEmojiVotoCommand := "install_emojivoto_app";
     booksAppInstallFile := "booksapp.yml";
     booksAppLocalFile := "booksapp.yml";
     emojivotoInstallFile := "emojivoto.yml";
     emojivotoLocalFile := "emojivoto.yml" |}.

Definition sockShopRequest : meshes.ApplyRuleRequest :=
  {| meshes.OpName := "install_sock_shop"; meshes.Namespace := "sock-shop";
     meshes.Username := "alice"; meshes.CustomBody := "";
     meshes.DeleteOp := false; meshes.OperationId := "op-9" |}.

Definition customRequest : meshes.ApplyRuleRequest :=
  {| meshes.OpName := "custom"; meshes.Namespace := "ns1";
     meshes.Username := "alice"; meshes.CustomBody := threeConfigMaps;
     meshes.DeleteOp := false; meshes.OperationId := "op-4" |}.

Definition removedEvent : meshes.EventsResponse :=
  {| meshes.EventType_ := meshes.EventType_INFO;
     meshes.Summary := "Linkerd removed successfully";
     meshes.Details := "The latest version of Linkerd is now removed.";
     meshes.evOperationId := "op-3" |}.

(** ** The manifest of a sample application: notions and inputs *)

(** Where the manifest of a sample application comes from: the manifest
    cache ([getYAML]) or a template rendered for the request
    ([executeTemplate]). *)
Inductive manifestSource :=
| Fetched (remote local : string)
| Rendered (template : string).

(** A sample application: its manifest, the name it is reported under
    and the service whose ports are looked up. *)
Record Sample := {
  sampleManifest : manifestSource;
  sampleApp : string;
  sampleSvc : string }.

Section ManifestNotions.
Context {E : Env} {R : Registry}.

(** The sample application an operation name stands for: the first of
    the four cases of the switch that names it. *)
Definition sampleOf (opName : string) (op : supportedOperation) : option Sample :=
  if String.eqb opName installBooksAppCommand then
    Some {| sampleManifest := Fetched booksAppInstallFile booksAppLocalFile;
            sampleApp := "Linkerd Books App"; sampleSvc := "webapp" |}
  else if String.eqb opName installHTTPBinApp then
    Some {| sampleManifest := Rendered (templateName op);
            sampleApp := "HTTP Bin App"; sampleSvc := "httpbin" |}
  else if String.eqb opName installIstioBookInfoApp then
    Some {| sampleManifest := Rendered (templateName op);
            sampleApp := "Istio canonical Book Info App"; sampleSvc := "productpage" |}
  else if String.eqb opName installEmojiVotoCommand then
    Some {| sampleManifest := Fetched emojivotoInstallFile emojivotoLocalFile;
            sampleApp := "Emojivoto App"; sampleSvc := "web-svc" |}
  else None.

(** The manifest step of a request: the text of the manifest, or the
    error of the fetch or of the rendering. *)
Definition obtainManifest (arReq : meshes.ApplyRuleRequest) (src : manifestSource)
    : M (string + error) :=
  match src with
  | Fetched remote local => lift (getYAML remote local)
  | Rendered template =>
      '(y, err) <- executeTemplate (meshes.Username arReq) (meshes.Namespace arReq) template ;;
      ret (match err with
           | Some err => inr err
           | None => inl y
           end)
  end.

(** The variables the goroutine of a sample application is started
    with. *)
Definition varsOf (sample : Sample) (y : string) : Vars :=
  {| yamlFileContents := y; appName := sampleApp sample; svcName := sampleSvc sample |}.

(** The variables a case of the switch leaves, or the error it returns,
    in terms of the result of the manifest step. *)
Definition named (sample : Sample) (r : string + error) : Vars + error :=
  match r with
  | inl y => inl (varsOf sample y)
  | inr err => inr err
  end.

End ManifestNotions.

(** A cluster whose manifest cache holds the manifest of the books
    application. *)
Definition booksCluster : fake.Cluster :=
  {| fake.objects := []; fake.forbidden := [];
     fake.manifests := [("booksapp.yml", oneConfigMap)];
     fake.installer := None; fake.streamBroken := false |}.

(** ** Delete batches with several Namespace documents: notions and inputs *)

Section DocumentNotions.
Context {E : Env}.




End DocumentNotions.


(** * Properties *)

(** ** Running the monad *)

Section Running.
Context {E : Env}.

Lemma bind_done {A B} (m : M A) (k : A -> M B) (st st1 : St) (a : A) :
  m st = (Done a, st1) -> bind m k st = k a st1.
Proof. intros H. unfold bind. rewrite H. reflexivity. Qed.

Lemma bind_inv {A B} (m : M A) (k : A -> M B) (st st2 : St) (b : B) :
  bind m k st = (Done b, st2) ->
  exists a st1, m st = (Done a, st1) /\ k a st1 = (Done b, st2).
Proof.
  unfold bind. destruct (m st) as [[a | msg |] st1]; intros H; try discriminate.
  exists a, st1. split; [reflexivity | exact H].
Qed.

Lemma record_run {A} (c : Call) (subj : option Unstructured) (err : A -> option error)
    (f : World -> A * World) (st : St) :
  record c subj err f st =
    (Done (fst (f (world st))),
     {| world := snd (f (world st));
        trace := trace st ++ [{| call := c; subject := subj;
                                failure := err (fst (f (world st))) |}];
        eventChan := eventChan st;
        slept := slept st |}).
Proof. unfold record. destruct (f (world st)); reflexivity. Qed.

Lemma lift_run {A} (f : World -> A * World) (st : St) :
  lift f st =
    (Done (fst (f (world st))),
     {| world := snd (f (world st)); trace := trace st;
        eventChan := eventChan st; slept := slept st |}).
Proof. unfold lift. destruct (f (world st)); reflexivity. Qed.

End Running.

(** ** Validation of the request (unknown operation, empty custom body) *)

Section Validation.
Context {E : Env} {R : Registry}.

(** C7. A request whose [OpName] is not a key of [supportedOps], or a
    custom request with an empty body, gets an error at once: the reply
    is an error (which, for an unknown name, spells the name out), no
    goroutine is started, and the state (world, trace of calls, event
    channel) is the one before the call. *)
Theorem ApplyOperation_rejects_invalid_request
    (iClient : Client) (arReq : meshes.ApplyRuleRequest) (st : St) :
  lookupOp (meshes.OpName arReq) supportedOps = None \/
  (meshes.OpName arReq = customOpCommand /\ meshes.CustomBody arReq = "") ->
  exists err,
    ApplyOperation iClient (Some arReq) st = (Done (inr err, None), st) /\
    (lookupOp (meshes.OpName arReq) supportedOps = None ->
     Error err = "operation id: " ++ meshes.OperationId arReq ++ ", error: "
                 ++ meshes.OpName arReq ++ " is not a valid operation name").
Proof.
  intros H. unfold ApplyOperation.
  destruct (lookupOp (meshes.OpName arReq) supportedOps) as [op |] eqn:Hop.
  - destruct H as [H | [Hname Hbody]]; [discriminate |].
    rewrite Hname, Hbody, !String.eqb_refl. cbn.
    eexists. split; [reflexivity | intros; discriminate].
  - eexists. split; [reflexivity | intros; reflexivity].
Qed.

End Validation.

Lemma ApplyOperation_rejects_invalid_request_witness :
  exists err,
    ApplyOperation (E := fake.env plainConfig) (R := fake.registry) fake.client
      (Some unknownRequest)
      (fake.start plainConfig fake.cluster0)
    = (Done (inr err, None), fake.start plainConfig fake.cluster0) /\
    (lookupOp "install_everything" (supportedOps (Registry := fake.registry)) = None ->
     Error err = "operation id: op-7, error: install_everything is not a valid operation name").
Proof.
  apply (ApplyOperation_rejects_invalid_request (E := fake.env plainConfig)
           (R := fake.registry) fake.client unknownRequest).
  left. reflexivity.
Defined.

(** ** The loop of applyConfigChange *)

Ltac break_match :=
  match goal with
  | H : context [match ?x with _ => _ end] |- _ => destruct x eqn:?
  | |- context [match ?x with _ => _ end] => destruct x eqn:?
  end.

Ltac run_step :=
  unfold bind, ret, panic, Create, Delete, Discovery in *;
  repeat rewrite record_run in *; cbn [fst snd] in *.

Section Loop.
Context {E : Env}.

(** A pass that goes on either keeps the loop's variables or has just
    read a Namespace document of a delete batch. *)
Lemma applyDocument_continue (deleteOpts : bool) (f : string)
    (mN mN' : meta.RESTMapping) (dN dN' : Unstructured) (st st1 : St) :
  applyDocument deleteOpts f mN dN st = (Done (Continue mN' dN'), st1) ->
  (mN' = mN /\ dN' = dN) \/
  (deleteOpts = true /\
   exists obj gvk, decode f = inl (obj, gvk) /\ ToUnstructured obj = inl dN' /\
                   GroupVersionKind_Kind dN' = "Namespace").
Proof.
  unfold applyDocument. intros H.
  repeat (break_match; run_step; try discriminate);
    try (injection H as <- <- _; left; split; reflexivity);
    try (injection H as <- <- <-; left; split; reflexivity).
  inversion H; subst. right. split; [reflexivity |].
  eexists _, _. repeat split; [eassumption |].
  apply String.eqb_eq. assumption.
Qed.

End Loop.

(** ** A delete batch without a Namespace document *)

Section WithoutNamespace.
Context {E : Env}.

Lemma noNamespaceDocument_cons (f : string) (rest : list string) :
  noNamespaceDocument (f :: rest) = true ->
  (forall obj gvk data, decode f = inl (obj, gvk) -> ToUnstructured obj = inl data ->
                        GroupVersionKind_Kind data <> "Namespace") /\
  noNamespaceDocument rest = true.
Proof.
  unfold noNamespaceDocument. cbn [forallb]. intros H.
  apply andb_true_iff in H. destruct H as [Hf Hrest]. split; [| exact Hrest].
  intros obj gvk data Hd Hu Hk. rewrite Hd, Hu, Hk in Hf. discriminate.
Qed.

(** Without a Namespace document the loop ends with the variables it
    started with. *)
Lemma applyDocuments_keeps_variables (sepYamlfiles : list string) :
  noNamespaceDocument sepYamlfiles = true ->
  forall (mN mN' : meta.RESTMapping) (dN dN' : Unstructured) (st st1 : St),
    applyDocuments true sepYamlfiles mN dN st = (Done (Continue mN' dN'), st1) ->
    mN' = mN /\ dN' = dN.
Proof.
  induction sepYamlfiles as [| f rest IH]; intros Hno mN mN' dN dN' st st1 Hrun.
  - cbn in Hrun. inversion Hrun. split; reflexivity.
  - apply noNamespaceDocument_cons in Hno. destruct Hno as [Hf Hrest].
    cbn [applyDocuments] in Hrun. apply bind_inv in Hrun.
    destruct Hrun as [r [st0 [Hstep Hk]]].
    destruct r as [mN0 dN0 | err]; [| discriminate].
    apply applyDocument_continue in Hstep.
    destruct Hstep as [[-> ->] | [_ [obj [gvk [Hd [Hu Hkind]]]]]].
    + exact (IH Hrest _ _ _ _ _ _ Hk).
    + exfalso. exact (Hf obj gvk dN0 Hd Hu Hkind).
Qed.

(** C10 (as amended). In a delete batch without a Namespace document whose
    loop runs to its end, the code after the loop still deletes: it calls
    Delete with the empty name on the resource of the zero mapping, and
    the error of that call (nil or not) is what the batch returns. *)
Theorem applyConfigChange_without_namespace_deletes_empty_name
    (deploymentYAML namespace : string) (mN : meta.RESTMapping) (dN : Unstructured)
    (st st1 : St) :
  noNamespaceDocument (strings.Split deploymentYAML separator) = true ->
  applyDocuments true (strings.Split deploymentYAML separator) meta.zero
    unstructured.empty st = (Done (Continue mN dN), st1) ->
  applyConfigChange deploymentYAML namespace true st =
    (Done (fst (clusterDelete schema.zeroGVR None "" foregroundDeleteOptions (world st1))),
     {| world := snd (clusterDelete schema.zeroGVR None "" foregroundDeleteOptions (world st1));
        trace := trace st1 ++
                 [{| call := CallDelete schema.zeroGVR None "" foregroundDeleteOptions;
                     subject := Some unstructured.empty;
                     failure := fst (clusterDelete schema.zeroGVR None ""
                                       foregroundDeleteOptions (world st1)) |}];
        eventChan := eventChan st1;
        slept := slept st1 |}).
Proof.
  intros Hno Hrun.
  destruct (applyDocuments_keeps_variables _ Hno _ _ _ _ _ _ Hrun) as [-> ->].
  unfold applyConfigChange. rewrite (bind_done _ _ _ _ _ Hrun).
  unfold removeNamespace. cbn [andb GetName getNestedString2 lookup unstructured.empty
                               String.eqb negb meta.Resource meta.zero].
  unfold bind, Delete. rewrite record_run. cbn [fst snd GetName getNestedString2 lookup
                                                 unstructured.empty].
  destruct (fst (clusterDelete schema.zeroGVR None "" foregroundDeleteOptions (world st1)));
    reflexivity.
Qed.

End WithoutNamespace.

Lemma applyConfigChange_without_namespace_deletes_empty_name_witness :
  fst (applyConfigChange (E := fake.env plainConfig) oneConfigMap "ns1" true
         (fake.start plainConfig fake.cluster0))
  = Done (Some (fake.notFound "")).
Proof.
  rewrite (applyConfigChange_without_namespace_deletes_empty_name
             (E := fake.env plainConfig) oneConfigMap "ns1" meta.zero unstructured.empty
             (fake.start plainConfig fake.cluster0)
             (snd (applyDocuments (E := fake.env plainConfig) true
                     (strings.Split oneConfigMap separator) meta.zero unstructured.empty
                     (fake.start plainConfig fake.cluster0)))).
  - vm_compute. reflexivity.
  - vm_compute. reflexivity.
  - vm_compute. reflexivity.
Defined.

(** C10 (as stated) fails where the loop returns early: the delete of
    [cm1] is refused, the function returns that error, and no delete with
    the empty name is made. *)
Lemma applyConfigChange_early_return_skips_empty_delete :
  noNamespaceDocument (E := fake.env plainConfig)
    (strings.Split oneConfigMap separator) = true /\
  existsb deletesNothing
    (trace (snd (applyConfigChange (E := fake.env plainConfig) oneConfigMap "ns1" true
                   (fake.start plainConfig guardedCluster)))) = false.
Proof. split; vm_compute; reflexivity. Qed.

(** ** Evaluations of applyConfigChange *)

(** C3. The discovery endpoint does not answer: the first document's
    resource mapping cannot be resolved, and [applyConfigChange] returns
    nil.  Neither ConfigMap of the batch is created; the only call made
    is the failed discovery. *)
Theorem applyConfigChange_resolution_failure_returns_nil :
  applyConfigChange (E := fake.env downConfig) twoConfigMaps "ns1" false
    (fake.start downConfig fake.cluster0)
  = (Done None,
     fake.state downConfig fake.cluster0
       [{| call := CallDiscovery; subject := None;
           failure := Some (StatusError StatusReasonInternalError
                        "the server is currently unable to handle the request") |}]
       [] 0).
Proof. vm_compute. reflexivity. Qed.

(** C4. A delete batch on a cluster that holds neither object: the
    NotFound of the ConfigMap, deleted in the loop, is passed over; the
    NotFound of the Namespace, deleted after the loop, is returned as the
    error of the batch. *)
Theorem applyConfigChange_namespace_not_found_is_an_error :
  let r := applyConfigChange (E := fake.env plainConfig) configMapThenNamespace "foo" true
             (fake.start plainConfig fake.cluster0) in
  fst r = Done (Some (fake.notFound "foo")) /\
  map (fun e => (subject e, failure e)) (trace (snd r)) =
    [ (None, None);
      (Some (fst (match fake.decodeDoc plainConfig (fake.doc "ConfigMap" "cm1" "foo") with
                  | inl d => d | inr _ => ([], schema.zeroGVK) end)),
       Some (fake.notFound "cm1"));
      (None, None);
      (Some (fst (match fake.decodeDoc plainConfig (fake.doc "Namespace" "foo" "") with
                  | inl d => d | inr _ => ([], schema.zeroGVK) end)),
       Some (fake.notFound "foo")) ].
Proof. split; vm_compute; reflexivity. Qed.

(** C6. The kind ConfigMapList is not one of the sixteen names, yet the
    pattern accepts it because it contains one of them.  The document is
    not skipped: its mapping is looked up, the lookup fails, and the
    function returns nil without creating the ConfigMap that follows. *)
Theorem applyConfigChange_accepts_kind_outside_the_list :
  ~ In "ConfigMapList" acceptedK8sTypes /\
  MatchString acceptedK8sTypes "ConfigMapList" = true /\
  applyConfigChange (E := fake.env schemeConfig) listThenConfigMap "ns1" false
    (fake.start schemeConfig fake.cluster0)
  = (Done None,
     fake.state schemeConfig fake.cluster0
       [{| call := CallDiscovery; subject := None; failure := None |}] [] 0).
Proof.
  split; [| split; vm_compute; reflexivity].
  cbn [In acceptedK8sTypes]. intros H.
  repeat (destruct H as [H | H]; [discriminate H |]). exact H.
Qed.

(** ** The Port Extractor *)

Section PortExtractor.
Context {E : Env}.





End PortExtractor.


(** ** The event stream *)

Section Stream.
Context {E : Env}.





End Stream.


(** ** The asynchronous operations *)

Section Asynchronous.
Context {E : Env} {R : Registry}.
Variable iClient : Client.

Lemma chanSend_room (ev : meshes.EventsResponse) (st : St) :
  room st -> chanSend ev st = (Done tt, pushed ev st).
Proof.
  unfold room, chanSend, pushed. intros H. apply Nat.ltb_lt in H. rewrite H. reflexivity.
Qed.

Lemma quiet_ret {A} (a : A) : quiet (ret a).
Proof. intros st. exists a, st. repeat split. Qed.

Lemma quiet_lift {A} (f : World -> A * World) : quiet (lift f).
Proof. intros st. rewrite lift_run. eexists _, _. repeat split. Qed.

Lemma quiet_bind {A B} (m : M A) (k : A -> M B) :
  quiet m -> (forall a, quiet (k a)) -> quiet (bind m k).
Proof.
  intros Hm Hk st. destruct (Hm st) as [a [st1 [Hrun [Htr Hch]]]].
  destruct (Hk a st1) as [b [st2 [Hrun2 [Htr2 Hch2]]]].
  exists b, st2. rewrite (bind_done _ _ _ _ _ Hrun). repeat split; congruence.
Qed.

Lemma quiet_executeTemplate (username namespace templateName : string) :
  quiet (executeTemplate username namespace templateName).
Proof.
  unfold executeTemplate. apply quiet_bind; [apply quiet_lift |].
  intros [tmpl | err]; [| apply quiet_ret].
  destruct (template_Execute tmpl _); apply quiet_ret.
Qed.

Lemma startSample_run (arReq : meshes.ApplyRuleRequest) (c : M (Vars + error))
    (st st1 : St) (r : Vars + error) :
  c st = (Done r, st1) ->
  startSample arReq c st
  = (Done (match r with
           | inl v => (inl (acknowledge arReq), Some (sampleGoroutine arReq v))
           | inr err => (inr err, None)
           end), st1).
Proof.
  intros H. unfold startSample. rewrite (bind_done _ _ _ _ _ H).
  destruct r as [v | err]; reflexivity.
Qed.

Lemma fallthrough_run (c : M (Vars + error)) (next : Vars -> M (Vars + error))
    (st st1 : St) (r : Vars + error) :
  c st = (Done r, st1) ->
  (forall v, r = inl v -> next v st1 = (Done (inl v), st1)) ->
  fallthrough c next st = (Done r, st1).
Proof.
  intros H Hnext. unfold fallthrough. rewrite (bind_done _ _ _ _ _ H).
  destruct r as [v | err]; [apply Hnext |]; reflexivity.
Qed.

(** A case entered by [fallthrough] with the application already named
    leaves the variables as they are. *)
Lemma caseHTTPBinApp_named (arReq : meshes.ApplyRuleRequest) (op : supportedOperation)
    (v : Vars) (st : St) :
  String.eqb (appName v) "" = false -> caseHTTPBinApp arReq op v st = (Done (inl v), st).
Proof. intros H. unfold caseHTTPBinApp. rewrite H. reflexivity. Qed.

Lemma caseIstioBookInfoApp_named (arReq : meshes.ApplyRuleRequest)
    (op : supportedOperation) (v : Vars) (st : St) :
  String.eqb (appName v) "" = false ->
  caseIstioBookInfoApp arReq op v st = (Done (inl v), st).
Proof. intros H. unfold caseIstioBookInfoApp. rewrite H. reflexivity. Qed.

Lemma caseEmojiVoto_named (v : Vars) (st : St) :
  String.eqb (appName v) "" = false -> caseEmojiVoto v st = (Done (inl v), st).
Proof. intros H. unfold caseEmojiVoto. rewrite H. reflexivity. Qed.

Lemma quiet_obtainManifest (arReq : meshes.ApplyRuleRequest) (src : manifestSource) :
  quiet (obtainManifest arReq src).
Proof.
  destruct src as [remote local | template]; cbn [obtainManifest].
  - apply quiet_lift.
  - apply quiet_bind; [apply quiet_executeTemplate |]. intros [y err]. apply quiet_ret.
Qed.

Lemma fetched_run (remote local : string) (sample : Sample) (arReq : meshes.ApplyRuleRequest)
    (st st1 : St) (r : string + error) :
  obtainManifest arReq (Fetched remote local) st = (Done r, st1) ->
  bind (lift (getYAML remote local))
       (fun r => match r with
                 | inr err => ret (inr err)
                 | inl y => ret (inl (varsOf sample y))
                 end) st
  = (Done (named sample r), st1).
Proof.
  cbn [obtainManifest]. intros H. rewrite (bind_done _ _ _ _ _ H).
  destruct r as [y | err]; reflexivity.
Qed.

Lemma rendered_run (template : string) (sample : Sample) (arReq : meshes.ApplyRuleRequest)
    (st st1 : St) (r : string + error) :
  obtainManifest arReq (Rendered template) st = (Done r, st1) ->
  bind (executeTemplate (meshes.Username arReq) (meshes.Namespace arReq) template)
       (fun x => match x with
                 | (y, err) =>
                     match err with
                     | Some err => ret (inr err)
                     | None => ret (inl (varsOf sample y))
                     end
                 end) st
  = (Done (named sample r), st1).
Proof.
  cbn [obtainManifest]. intros H. apply bind_inv in H.
  destruct H as [[y err] [st0 [Hrun Hret]]]. rewrite (bind_done _ _ _ _ _ Hrun).
  destruct err as [err |]; unfold ret in *; inversion Hret; subst; reflexivity.
Qed.

Lemma bind_panic {A B} (m : M A) (k : A -> M B) (st st1 : St) (msg : string) :
  m st = (Panic msg, st1) -> bind m k st = (Panic msg, st1).
Proof. intros H. unfold bind. rewrite H. reflexivity. Qed.

End Asynchronous.

Section AsynchronousOperations.
Context {E : Env} {R : Registry}.
Variable iClient : Client.

(** C5 (as amended). For a registered operation other than the custom
    one: (1) the product install is acknowledged at once, with the
    request's operation id, the state untouched and the install goroutine
    started.  (2) Each of the four sample operations stands for a sample
    application; a request for it runs the manifest step of that
    application (the fetch or the rendering) before the reply, without a
    call to the cluster and without touching the event channel: when the
    step returns an error, that error is the reply and no goroutine is
    started; when it returns the manifest, the request is acknowledged
    with its operation id and the goroutine is started with that manifest
    and the names of the application.  (3)-(4) The install goroutine puts
    an ERROR event with the error's text on the channel when
    [executeInstall] returns an error and an INFO event when it returns
    nil.  (5)-(8) The goroutine of the sample applications puts an ERROR
    event on the channel when labelling the namespace or applying the
    manifest returns an error, a WARN event when the deployment went
    through but the port lookup returned an error, and an INFO event
    otherwise.  Every event carries the request's operation id and is put
    on the channel when the channel has room.  (9)-(12) A step that panics
    instead of returning ends the goroutine with that panic, in the state
    the step left: no event follows. *)
Theorem ApplyOperation_asynchronous
    (arReq : meshes.ApplyRuleRequest) (op : supportedOperation) (st : St) :
  lookupOp (meshes.OpName arReq) supportedOps = Some op ->
  meshes.OpName arReq <> customOpCommand ->
  let opName1 := if meshes.DeleteOp arReq then "removing" else "deploying" in
  let opName := if meshes.DeleteOp arReq then "removed" else "deployed" in
  (meshes.OpName arReq = installLinkerdCommand ->
   ApplyOperation iClient (Some arReq) st
   = (Done (inl (acknowledge arReq), Some (installGoroutine iClient arReq)), st)) /\
  (meshes.OpName arReq <> installLinkerdCommand ->
   (In (meshes.OpName arReq) sampleCommands ->
    exists sample, sampleOf (meshes.OpName arReq) op = Some sample) /\
   (forall sample,
      sampleOf (meshes.OpName arReq) op = Some sample ->
      exists r st1,
        obtainManifest arReq (sampleManifest sample) st = (Done r, st1) /\
        trace st1 = trace st /\ eventChan st1 = eventChan st /\
        ApplyOperation iClient (Some arReq) st
        = (Done (match r with
                 | inl y => (inl (acknowledge arReq),
                             Some (sampleGoroutine arReq (varsOf sample y)))
                 | inr err => (inr err, None)
                 end), st1))) /\
  (forall (s s1 : St) (err : error),
     executeInstall iClient arReq s = (Done (Some err), s1) -> room s1 ->
     installGoroutine iClient arReq s
     = (Done tt, pushed (event arReq meshes.EventType_ERROR
                           ("Error while " ++ opName1 ++ " Linkerd") (Error err)) s1)) /\
  (forall (s s1 : St),
     executeInstall iClient arReq s = (Done None, s1) -> room s1 ->
     installGoroutine iClient arReq s
     = (Done tt, pushed (event arReq meshes.EventType_INFO
                           ("Linkerd " ++ opName ++ " successfully")
                           ("The latest version of Linkerd is now " ++ opName ++ ".")) s1)) /\
  (forall (v : Vars) (s s1 : St) (err : error),
     meshes.DeleteOp arReq = false ->
     labelNamespaceForAutoInjection (meshes.Namespace arReq) s = (Done (Some err), s1) ->
     room s1 ->
     sampleGoroutine arReq v s
     = (Done tt, pushed (event arReq meshes.EventType_ERROR
                           ("Error while " ++ opName1 ++ " the canonical " ++ appName v)
                           (Error err)) s1)) /\
  (forall (v : Vars) (s s0 s1 : St) (err : error),
     prepared arReq s s0 ->
     applyConfigChange (yamlFileContents v) (meshes.Namespace arReq) (meshes.DeleteOp arReq) s0
     = (Done (Some err), s1) ->
     room s1 ->
     sampleGoroutine arReq v s
     = (Done tt, pushed (event arReq meshes.EventType_ERROR
                           ("Error while " ++ opName1 ++ " the canonical " ++ appName v)
                           (Error err)) s1)) /\
  (forall (v : Vars) (s s0 s1 s2 : St) (err : error),
     meshes.DeleteOp arReq = false ->
     prepared arReq s s0 ->
     applyConfigChange (yamlFileContents v) (meshes.Namespace arReq) (meshes.DeleteOp arReq) s0
     = (Done None, s1) ->
     getSVCPort (svcName v) (meshes.Namespace arReq) s1 = (Done (inr err), s2) ->
     room s2 ->
     sampleGoroutine arReq v s
     = (Done tt, pushed (event arReq meshes.EventType_WARN
                           (appName v ++
                            " is deployed but unable to retrieve the port info for the service at the moment")
                           (Error err)) s2)) /\
  (forall (v : Vars) (s s0 s1 s2 : St) (ports : list Z),
     prepared arReq s s0 ->
     applyConfigChange (yamlFileContents v) (meshes.Namespace arReq) (meshes.DeleteOp arReq) s0
     = (Done None, s1) ->
     (if meshes.DeleteOp arReq then ports = [] /\ s2 = s1
      else getSVCPort (svcName v) (meshes.Namespace arReq) s1 = (Done (inl ports), s2)) ->
     room s2 ->
     sampleGoroutine arReq v s
     = (Done tt, pushed (event arReq meshes.EventType_INFO
                           (appName v ++ " " ++ opName ++ " successfully")
                           (completionMessage (appName v) opName ports)) s2)) /\
  (forall (s s1 : St) (msg : string),
     executeInstall iClient arReq s = (Panic msg, s1) ->
     installGoroutine iClient arReq s = (Panic msg, s1)) /\
  (forall (v : Vars) (s s1 : St) (msg : string),
     meshes.DeleteOp arReq = false ->
     labelNamespaceForAutoInjection (meshes.Namespace arReq) s = (Panic msg, s1) ->
     sampleGoroutine arReq v s = (Panic msg, s1)) /\
  (forall (v : Vars) (s s0 s1 : St) (msg : string),
     prepared arReq s s0 ->
     applyConfigChange (yamlFileContents v) (meshes.Namespace arReq) (meshes.DeleteOp arReq) s0
     = (Panic msg, s1) ->
     sampleGoroutine arReq v s = (Panic msg, s1)) /\
  (forall (v : Vars) (s s0 s1 s2 : St) (msg : string),
     meshes.DeleteOp arReq = false ->
     prepared arReq s s0 ->
     applyConfigChange (yamlFileContents v) (meshes.Namespace arReq) (meshes.DeleteOp arReq) s0
     = (Done None, s1) ->
     getSVCPort (svcName v) (meshes.Namespace arReq) s1 = (Panic msg, s2) ->
     sampleGoroutine arReq v s = (Panic msg, s2)).
Proof.
  intros Hop Hcustom opName1 opName.
  apply String.eqb_neq in Hcustom.
  split; [| split; [| split; [| split; [| split; [| split; [| split; [| split;
    [| split; [| split; [| split]]]]]]]]]].
  - intros Hname. unfold ApplyOperation. rewrite Hop, Hcustom. cbn [andb].
    rewrite Hname, String.eqb_refl. reflexivity.
  - intros Hinstall. apply String.eqb_neq in Hinstall. split.
    + intros Hin. unfold sampleOf.
      destruct (String.eqb (meshes.OpName arReq) installBooksAppCommand) eqn:H1;
        [eexists; reflexivity |].
      destruct (String.eqb (meshes.OpName arReq) installHTTPBinApp) eqn:H2;
        [eexists; reflexivity |].
      destruct (String.eqb (meshes.OpName arReq) installIstioBookInfoApp) eqn:H3;
        [eexists; reflexivity |].
      destruct (String.eqb (meshes.OpName arReq) installEmojiVotoCommand) eqn:H4;
        [eexists; reflexivity |].
      exfalso. apply String.eqb_neq in H1, H2, H3, H4.
      cbn [In sampleCommands] in Hin.
      destruct Hin as [H | [H | [H | [H | []]]]]; congruence.
    + intros sample Hsample.
      destruct (quiet_obtainManifest arReq (sampleManifest sample) st)
        as [r [st1 [Hstep [Htr Hch]]]].
      exists r, st1. split; [exact Hstep |]. split; [exact Htr |]. split; [exact Hch |].
      unfold ApplyOperation. rewrite Hop, Hcustom, Hinstall. cbn [andb].
      unfold sampleOf in Hsample.
      destruct (String.eqb (meshes.OpName arReq) installBooksAppCommand) eqn:H1;
        [| destruct (String.eqb (meshes.OpName arReq) installHTTPBinApp) eqn:H2;
           [| destruct (String.eqb (meshes.OpName arReq) installIstioBookInfoApp) eqn:H3;
              [| destruct (String.eqb (meshes.OpName arReq) installEmojiVotoCommand) eqn:H4;
                 [| discriminate Hsample]]]];
        injection Hsample as <-; cbn [sampleManifest] in Hstep.
      all: match goal with
           | |- startSample _ ?c _ = (Done (match _ with
                                            | inl y => (_, Some (sampleGoroutine _ (varsOf ?sa y)))
                                            | inr _ => _
                                            end), _) =>
               rewrite (startSample_run arReq c st st1 (named sa r));
                 [destruct r; reflexivity |]
           end.
      all: repeat (apply fallthrough_run;
                   [| intros v Hv;
                      first [apply caseHTTPBinApp_named | apply caseIstioBookInfoApp_named
                            | apply caseEmojiVoto_named];
                      destruct r; inversion Hv; reflexivity]).
      all: match goal with
           | |- _ = (Done (named ?sa _), _) =>
               first [exact (fetched_run _ _ sa arReq st st1 r Hstep)
                     | exact (rendered_run _ sa arReq st st1 r Hstep)]
           end.
  - intros s s1 err Hrun Hroom. unfold installGoroutine.
    rewrite (bind_done _ _ _ _ _ Hrun). apply chanSend_room. exact Hroom.
  - intros s s1 Hrun Hroom. unfold installGoroutine.
    rewrite (bind_done _ _ _ _ _ Hrun). apply chanSend_room. exact Hroom.
  - intros v s s1 err Hdel Hlabel Hroom. unfold sampleGoroutine.
    rewrite Hdel. cbn [negb]. rewrite (bind_done _ _ _ _ _ Hlabel).
    subst opName1. rewrite Hdel. apply chanSend_room. exact Hroom.
  - intros v s s0 s1 err Hprep Happly Hroom. unfold sampleGoroutine.
    unfold prepared in Hprep. subst opName1.
    destruct (meshes.DeleteOp arReq) eqn:Hdel; cbn [negb].
    + subst s0. unfold bind at 1. unfold ret at 1.
      rewrite (bind_done _ _ _ _ _ Happly). apply chanSend_room. exact Hroom.
    + rewrite (bind_done _ _ _ _ _ Hprep).
      rewrite (bind_done _ _ _ _ _ Happly). apply chanSend_room. exact Hroom.
  - intros v s s0 s1 s2 err Hdel Hprep Happly Hports Hroom. unfold sampleGoroutine.
    unfold prepared in Hprep. rewrite Hdel in *. cbn [negb].
    rewrite (bind_done _ _ _ _ _ Hprep).
    rewrite (bind_done _ _ _ _ _ Happly).
    rewrite (bind_done _ _ _ _ _ Hports). apply chanSend_room. exact Hroom.
  - intros v s s0 s1 s2 ports Hprep Happly Hports Hroom. unfold sampleGoroutine.
    unfold prepared in Hprep. subst opName.
    destruct (meshes.DeleteOp arReq) eqn:Hdel; cbn [negb].
    + destruct Hports as [-> ->]. subst s0. unfold bind at 1. unfold ret at 1.
      rewrite (bind_done _ _ _ _ _ Happly). unfold completed.
      apply chanSend_room. exact Hroom.
    + rewrite (bind_done _ _ _ _ _ Hprep).
      rewrite (bind_done _ _ _ _ _ Happly).
      rewrite (bind_done _ _ _ _ _ Hports). unfold completed.
      apply chanSend_room. exact Hroom.
  - intros s s1 msg Hrun. unfold installGoroutine. apply bind_panic. exact Hrun.
  - intros v s s1 msg Hdel Hlabel. unfold sampleGoroutine. rewrite Hdel. cbn [negb].
    apply bind_panic. exact Hlabel.
  - intros v s s0 s1 msg Hprep Happly. unfold sampleGoroutine.
    unfold prepared in Hprep.
    destruct (meshes.DeleteOp arReq) eqn:Hdel; cbn [negb].
    + subst s0. unfold bind at 1. unfold ret at 1. apply bind_panic. exact Happly.
    + rewrite (bind_done _ _ _ _ _ Hprep). apply bind_panic. exact Happly.
  - intros v s s0 s1 s2 msg Hdel Hprep Happly Hports. unfold sampleGoroutine.
    unfold prepared in Hprep. rewrite Hdel in *. cbn [negb].
    rewrite (bind_done _ _ _ _ _ Hprep).
    rewrite (bind_done _ _ _ _ _ Happly).
    apply bind_panic. exact Hports.
Qed.

End AsynchronousOperations.

Lemma ApplyOperation_asynchronous_witness :
  ApplyOperation (E := fake.env plainConfig) (R := fake.registry) fake.client
    (Some installRequest) (fake.start plainConfig fake.cluster0)
  = (Done (inl {| meshes.respError := ""; meshes.respOperationId := "op-1" |},
           Some (installGoroutine (E := fake.env plainConfig) fake.client installRequest)),
     fake.start plainConfig fake.cluster0) /\
  ApplyOperation (E := fake.env plainConfig) (R := fake.registry) fake.client
    (Some booksRequest) (fake.start plainConfig booksCluster)
  = (Done (inl {| meshes.respError := ""; meshes.respOperationId := "op-2" |},
           Some (sampleGoroutine (E := fake.env plainConfig) booksRequest
                   {| yamlFileContents := oneConfigMap; appName := "Linkerd Books App";
                      svcName := "webapp" |})),
     fake.start plainConfig booksCluster) /\
  installGoroutine (E := fake.env plainConfig) fake.client installRequest
    (fake.start plainConfig fake.cluster0)
  = (Done tt,
     fake.state plainConfig fake.cluster0 []
       [{| meshes.EventType_ := meshes.EventType_ERROR;
           meshes.Summary := "Error while deploying Linkerd";
           meshes.Details := "exec: linkerd: executable file not found";
           meshes.evOperationId := "op-1" |}] 0).
Proof.
  split; [| split].
  - apply (proj1 (ApplyOperation_asynchronous (E := fake.env plainConfig)
                    (R := fake.registry) fake.client installRequest
                    {| name := "Latest version of Linkerd"; opType := 0; templateName := "" |}
                    (fake.start plainConfig fake.cluster0)
                    ltac:(reflexivity) ltac:(discriminate))).
    reflexivity.
  - destruct (proj2 (proj1 (proj2 (ApplyOperation_asynchronous (E := fake.env plainConfig)
                       (R := fake.registry) fake.client booksRequest
                       {| name := "Linkerd Books App"; opType := 1; templateName := "" |}
                       (fake.start plainConfig booksCluster)
                       ltac:(reflexivity) ltac:(discriminate)))
                     ltac:(discriminate))
                {| sampleManifest := Fetched "booksapp.yml" "booksapp.yml";
                   sampleApp := "Linkerd Books App"; sampleSvc := "webapp" |}
                ltac:(reflexivity))
      as [r [st1 [Hstep [_ [_ Hreply]]]]].
    vm_compute in Hstep. injection Hstep as <- <-. exact Hreply.
  - exact (proj1 (proj2 (proj2 (ApplyOperation_asynchronous (E := fake.env plainConfig)
                    (R := fake.registry) fake.client installRequest
                    {| name := "Latest version of Linkerd"; opType := 0; templateName := "" |}
                    (fake.start plainConfig fake.cluster0)
                    ltac:(reflexivity) ltac:(discriminate))))
             (fake.start plainConfig fake.cluster0) (fake.start plainConfig fake.cluster0)
             (errorString "exec: linkerd: executable file not found")
             ltac:(vm_compute; reflexivity) ltac:(apply Nat.ltb_lt; vm_compute; reflexivity)).
Defined.

(** C5 (as stated) fails where the manifest of a sample application cannot
    be obtained: the request gets the error as its reply, not the
    acknowledgment, and no goroutine is started. *)
Lemma ApplyOperation_manifest_error_is_the_reply :
  fst (ApplyOperation (E := fake.env plainConfig) (R := fake.registry) fake.client
         (Some booksRequest) (fake.start plainConfig fake.cluster0))
  = Done (inr (errorString "unable to read booksapp.yml"), None).
Proof. vm_compute. reflexivity. Qed.

(** ** Namespaces are deleted last *)



Section NamespaceLast.
Context {E : Env}.


End NamespaceLast.

Section NamespaceLastBatch.
Context {E : Env}.






End NamespaceLastBatch.

(** ** Delete batches on the executable cluster *)



(** The Namespace written first is deleted last, after the ConfigMap. *)
Example namespace_first_is_deleted_last :
  let r := applyConfigChange (E := fake.env plainConfig) namespaceThenConfigMap "foo" true
             (fake.start plainConfig fooCluster) in
  fst r = Done None /\
  map (fun e => (isDelete (call e), nameOf e)) (trace (snd r)) =
    [(false, ""); (false, ""); (true, "cm1"); (true, "foo")] /\
  fake.objects (world (snd r)) = [].
Proof. repeat split; vm_compute; reflexivity. Qed.

(** Scenario E: the only document is the Namespace "default". *)
Example default_namespace_is_not_deleted :
  applyConfigChange (E := fake.env plainConfig) defaultNamespaceOnly "default" true
    (fake.start plainConfig fake.cluster0)
  = (Done None,
     fake.state plainConfig fake.cluster0
       [{| call := CallDiscovery; subject := None; failure := None |}] [] 0).
Proof. vm_compute. reflexivity. Qed.

(** ** What a batch applies *)


Section Applied.
Context {E : Env}.





End Applied.

Section AppliedBatch.
Context {E : Env}.





End AppliedBatch.

(** ** Batches on the executable cluster *)



(** ** Namespaces are deleted last: what is deleted *)



Section Deleted.
Context {E : Env}.




End Deleted.




(** The batch stops at [cm2]: [cm1] is created, [cm3] is not tried. *)
Example create_batch_stops_at_first_failure :
  let r := applyConfigChange (E := fake.env plainConfig) threeConfigMaps "ns1" false
             (fake.start plainConfig guardedSecond) in
  fst r = Done (Some (StatusError StatusReasonForbidden "cm2 is forbidden")) /\
  map nameOf (mutations (trace (snd r))) = ["cm1"; "cm2"] /\
  map nameOf (filter passedOver (mutations (trace (snd r)))) = ["cm1"].
Proof. repeat split; vm_compute; reflexivity. Qed.


(** * Further properties of the adapter *)

(** ** What the methods may touch *)

Section Frames.
Context {E : Env}.

Lemma confined_weaken {A} (P Q : Entry -> Prop) (m : M A) :
  (forall e, P e -> Q e) -> confined P m -> confined Q m.
Proof.
  intros HPQ Hm st o st1 H. destruct (Hm st o st1 H) as [Hb [Hc [Hs [new [Ht Hall]]]]].
  split; [exact Hb |]. split; [exact Hc |]. split; [exact Hs |].
  exists new. split; [exact Ht |].
  eapply Forall_impl; [exact HPQ | exact Hall].
Qed.

Lemma confined_ret {A} (P : Entry -> Prop) (a : A) : confined P (ret a).
Proof.
  intros st o st1 H. inversion H; subst. split; [discriminate |]. repeat split.
  exists []. split; [symmetry; apply app_nil_r | constructor].
Qed.

Lemma confined_panic {A} (P : Entry -> Prop) (msg : string) : confined P (@panic E A msg).
Proof.
  intros st o st1 H. inversion H; subst. split; [discriminate |]. repeat split.
  exists []. split; [symmetry; apply app_nil_r | constructor].
Qed.

Lemma confined_lift {A} (P : Entry -> Prop) (f : World -> A * World) : confined P (lift f).
Proof.
  intros st o st1 H. rewrite lift_run in H. inversion H; subst.
  split; [discriminate |]. repeat split.
  exists []. split; [symmetry; apply app_nil_r | constructor].
Qed.

Lemma confined_record {A} (P : Entry -> Prop) (c : Call) (subj : option Unstructured)
    (err : A -> option error) (f : World -> A * World) :
  (forall r, P {| call := c; subject := subj; failure := r |}) ->
  confined P (record c subj err f).
Proof.
  intros HP st o st1 H. rewrite record_run in H. inversion H; subst.
  split; [discriminate |]. repeat split.
  eexists [_]. split; [reflexivity |]. constructor; [apply HP | constructor].
Qed.

Lemma confined_bind {A B} (P : Entry -> Prop) (m : M A) (k : A -> M B) :
  confined P m -> (forall a, confined P (k a)) -> confined P (bind m k).
Proof.
  intros Hm Hk st o st2 H. unfold bind in H.
  destruct (m st) as [[a | msg |] st1] eqn:Hrun;
    destruct (Hm _ _ _ Hrun) as [Hb [Hc [Hs [new [Ht Hall]]]]].
  - destruct (Hk a _ _ _ H) as [Hb2 [Hc2 [Hs2 [new2 [Ht2 Hall2]]]]].
    split; [exact Hb2 |]. split; [congruence |]. split; [congruence |].
    exists (new ++ new2)%list. split; [rewrite Ht2, Ht, app_assoc; reflexivity |].
    apply Forall_app. split; assumption.
  - inversion H; subst. split; [discriminate |]. split; [exact Hc |]. split; [exact Hs |].
    exists new. split; assumption.
  - contradiction.
Qed.

End Frames.

Ltac confine :=
  repeat first
    [ apply confined_ret
    | apply confined_panic
    | apply confined_lift
    | apply confined_bind; [| intros ? ]
    | match goal with
      | |- confined _ (match ?x with _ => _ end) => destruct x
      | |- confined _ (if ?x then _ else _) => destruct x
      end ].

Section BatchFrame.
Context {E : Env}.

Lemma confined_Discovery (deleteOpts : bool) : confined (batchCall deleteOpts) Discovery.
Proof. apply confined_record. intros r. left. reflexivity. Qed.

Lemma confined_Create (res : schema.GroupVersionResource) (ns : option string)
    (data : Unstructured) : confined (batchCall false) (Create res ns data).
Proof. apply confined_record. intros r. right. reflexivity. Qed.

Lemma confined_Delete (res : schema.GroupVersionResource) (ns : option string)
    (data : Unstructured) (opts : metav1.DeleteOptions) :
  confined (batchCall true) (Delete res ns data opts).
Proof. apply confined_record. intros r. right. reflexivity. Qed.

Lemma confined_applyDocument (deleteOpts : bool) (f : string) (mN : meta.RESTMapping)
    (dN : Unstructured) : confined (batchCall deleteOpts) (applyDocument deleteOpts f mN dN).
Proof.
  unfold applyDocument.
  destruct (String.eqb f nl || String.eqb f ""); [apply confined_ret |].
  destruct (decode f) as [[obj gvk] | derr]; [| apply confined_ret].
  destruct (negb _); [apply confined_ret |].
  apply confined_bind; [apply confined_Discovery |].
  intros [gr | gerr]; [| apply confined_ret].
  destruct (RESTMapping _ _ _) as [mapping | merr]; [| apply confined_ret].
  destruct (ToUnstructured obj) as [data | cerr]; [| apply confined_ret].
  destruct (meta.Scope mapping) as [scope |]; [| apply confined_panic].
  destruct (String.eqb (meta.Name scope) "root"); destruct deleteOpts;
    try (destruct (String.eqb (GroupVersionKind_Kind data) "Namespace");
         [apply confined_ret |]);
    (apply confined_bind; [first [apply confined_Delete | apply confined_Create] |]);
    intros err; destruct (fatal _ err); apply confined_ret.
Qed.

Lemma confined_applyDocuments (deleteOpts : bool) (sepYamlfiles : list string) :
  forall (mN : meta.RESTMapping) (dN : Unstructured),
    confined (batchCall deleteOpts) (applyDocuments deleteOpts sepYamlfiles mN dN).
Proof.
  induction sepYamlfiles as [| f rest IH]; intros mN dN; cbn [applyDocuments].
  - apply confined_ret.
  - apply confined_bind; [apply confined_applyDocument |].
    intros [mN' dN' | err]; [apply IH | apply confined_ret].
Qed.

Lemma confined_applyConfigChange (deploymentYAML namespace : string) (deleteOpts : bool) :
  confined (batchCall deleteOpts) (applyConfigChange deploymentYAML namespace deleteOpts).
Proof.
  unfold applyConfigChange. apply confined_bind; [apply confined_applyDocuments |].
  intros [mN dN | err]; [| apply confined_ret].
  unfold removeNamespace. destruct deleteOpts; cbn [andb]; [| apply confined_ret].
  destruct (negb _); [| apply confined_ret].
  apply confined_bind; [apply confined_Delete |].
  intros [err |]; apply confined_ret.
Qed.

(** X1. Whatever the manifest and however the batch ends, [applyConfigChange]
    is never blocked, leaves the event channel and the time slept as
    they were and only adds calls to the trace; the calls of a create
    batch are discovery and create calls, those of a delete batch
    discovery and delete calls. *)
Theorem applyConfigChange_confined (deploymentYAML namespace : string) (deleteOpts : bool) :
  confined (batchCall deleteOpts) (applyConfigChange deploymentYAML namespace deleteOpts).
Proof. apply confined_applyConfigChange. Qed.

End BatchFrame.

(** ** Documents the loop passes over *)

Section Skipped.
Context {E : Env}.

Lemma applyDocument_skipped (deleteOpts : bool) (f : string) (mN : meta.RESTMapping)
    (dN : Unstructured) (st : St) :
  skipped f = true -> applyDocument deleteOpts f mN dN st = (Done (Continue mN dN), st).
Proof.
  unfold skipped, applyDocument. intros H.
  destruct (String.eqb f nl || String.eqb f ""); [reflexivity |].
  cbn [orb] in H. destruct (decode f) as [[obj gvk] | derr]; [| reflexivity].
  rewrite H. reflexivity.
Qed.

Lemma applyDocuments_skipped (deleteOpts : bool) (sepYamlfiles : list string) :
  forallb skipped sepYamlfiles = true ->
  forall (mN : meta.RESTMapping) (dN : Unstructured) (st : St),
    applyDocuments deleteOpts sepYamlfiles mN dN st = (Done (Continue mN dN), st).
Proof.
  induction sepYamlfiles as [| f rest IH]; intros H mN dN st; [reflexivity |].
  cbn [forallb] in H. apply andb_true_iff in H. destruct H as [Hf Hrest].
  cbn [applyDocuments]. rewrite (bind_done _ _ _ _ _ (applyDocument_skipped _ f mN dN st Hf)).
  apply IH. exact Hrest.
Qed.

(** X2. A create batch all of whose fragments are blank, fail to decode or
    have a kind the pattern does not match is a success that leaves the
    state as it was: no call is made, not even to discovery. *)
Theorem applyConfigChange_nothing_to_create (deploymentYAML namespace : string) (st : St) :
  forallb skipped (strings.Split deploymentYAML separator) = true ->
  applyConfigChange deploymentYAML namespace false st = (Done None, st).
Proof.
  intros H. unfold applyConfigChange.
  rewrite (bind_done _ _ _ _ _ (applyDocuments_skipped false _ H _ _ st)). reflexivity.
Qed.

End Skipped.

Lemma applyConfigChange_nothing_to_create_witness :
  applyConfigChange (E := fake.env schemeConfig) nothingToApply "ns1" false
    (fake.start schemeConfig fake.cluster0)
  = (Done None, fake.start schemeConfig fake.cluster0).
Proof.
  apply (applyConfigChange_nothing_to_create (E := fake.env schemeConfig)).
  vm_compute. reflexivity.
Defined.

(** ** The pattern of accepted kinds *)

Lemma prefix_app (a b : string) : String.prefix a (a ++ b) = true.
Proof.
  induction a as [| c a IH]; cbn; [destruct b; reflexivity |].
  destruct (ascii_dec c c) as [_ | Hne]; [exact IH | contradiction].
Qed.

Lemma prefix_inv (a s : string) : String.prefix a s = true -> exists b, s = (a ++ b)%string.
Proof.
  revert s. induction a as [| c a IH]; intros s H.
  - exists s. reflexivity.
  - destruct s as [| d s]; cbn in H; [discriminate H |].
    destruct (ascii_dec c d) as [-> | _]; [| discriminate H].
    destruct (IH s H) as [b ->]. exists b. reflexivity.
Qed.

Lemma Contains_unfold (s sub : string) :
  strings.Contains s sub =
    if String.prefix sub s then true
    else match s with
         | EmptyString => false
         | String _ s' => strings.Contains s' sub
         end.
Proof. destruct s; reflexivity. Qed.

Lemma Contains_iff (s sub : string) :
  strings.Contains s sub = true <-> exists pre post, s = (pre ++ sub ++ post)%string.
Proof.
  split.
  - induction s as [| c s IH]; rewrite Contains_unfold; intros H.
    + destruct (String.prefix sub "") eqn:Hp; [| discriminate H].
      destruct (prefix_inv _ _ Hp) as [b Hb]. exists "", b. exact Hb.
    + destruct (String.prefix sub (String c s)) eqn:Hp.
      * destruct (prefix_inv _ _ Hp) as [b Hb]. exists "", b. exact Hb.
      * destruct (IH H) as [pre [post ->]]. exists (String c pre), post. reflexivity.
  - intros [pre [post ->]]. induction pre as [| c pre IH]; rewrite Contains_unfold.
    + cbn [append]. rewrite prefix_app. reflexivity.
    + cbn [append]. destruct (String.prefix sub _); [reflexivity | exact IH].
Qed.

(** X3. The filter on kinds accepts exactly the kinds in which one of the
    sixteen names occurs, at any place: a kind passes if and only if it
    is some text, followed by one of the names, followed by some text. *)
Theorem MatchString_accepts_substrings (kind : string) :
  MatchString acceptedK8sTypes kind = true <->
  exists name pre post,
    In name acceptedK8sTypes /\ kind = (pre ++ name ++ post)%string.
Proof.
  unfold MatchString. rewrite existsb_exists. split.
  - intros [name [Hin Hc]]. apply Contains_iff in Hc. destruct Hc as [pre [post Hk]].
    exists name, pre, post. split; assumption.
  - intros [name [pre [post [Hin Hk]]]]. exists name. split; [exact Hin |].
    apply Contains_iff. exists pre, post. exact Hk.
Qed.

(** ** Splitting the manifest *)

Lemma append_nil_r (s : string) : (s ++ "")%string = s.
Proof. induction s as [| c s IH]; cbn; [| rewrite IH]; reflexivity. Qed.

Lemma append_assoc (a b c : string) : ((a ++ b) ++ c = a ++ b ++ c)%string.
Proof. induction a as [| x a IH]; cbn; [| rewrite IH]; reflexivity. Qed.

Lemma length_append (a b : string) :
  String.length (a ++ b) = String.length a + String.length b.
Proof. induction a as [| x a IH]; cbn; [| rewrite IH]; reflexivity. Qed.

Lemma splitFrom_skip (sep suf : string) :
  forall (rest acc : string),
    strings.splitFrom sep (suf ++ rest) (String.length suf) acc
    = strings.splitFrom sep rest 0 acc.
Proof.
  induction suf as [| c suf IH]; intros rest acc; cbn [append String.length].
  - reflexivity.
  - cbn [strings.splitFrom]. apply IH.
Qed.

Lemma splitFrom_nonempty (sep s : string) :
  forall (skip : nat) (acc : string), strings.splitFrom sep s skip acc <> [].
Proof.
  induction s as [| c s IH]; intros skip acc; cbn [strings.splitFrom]; [discriminate |].
  destruct skip as [| k]; [| apply IH].
  destruct (String.prefix sep (String c s)); [discriminate | apply IH].
Qed.

Lemma concat_cons (sep x : string) (l : list string) :
  l <> [] -> String.concat sep (x :: l) = (x ++ sep ++ String.concat sep l)%string.
Proof. destruct l; [contradiction | reflexivity]. Qed.

Lemma splitFrom_join (sep : string) :
  sep <> "" ->
  forall (n : nat) (s acc : string),
    String.length s <= n ->
    String.concat sep (strings.splitFrom sep s 0 acc) = (acc ++ s)%string.
Proof.
  intros Hsep. induction n as [| n IH]; intros s acc Hlen.
  - destruct s; [| cbn in Hlen; lia]. cbn. rewrite append_nil_r. reflexivity.
  - destruct s as [| c s]; [cbn; rewrite append_nil_r; reflexivity |].
    cbn [strings.splitFrom]. destruct (String.prefix sep (String c s)) eqn:Hp.
    + destruct (prefix_inv _ _ Hp) as [b Hb].
      destruct sep as [| c0 sep']; [contradiction |].
      cbn [append] in Hb. injection Hb as -> ->.
      replace (String.length (String c0 sep') - 1) with (String.length sep')
        by (cbn [String.length]; lia).
      rewrite splitFrom_skip.
      rewrite concat_cons by apply splitFrom_nonempty.
      rewrite IH.
      * reflexivity.
      * cbn [String.length] in Hlen. rewrite length_append in Hlen. lia.
    + rewrite IH.
      * rewrite append_assoc. reflexivity.
      * cbn [String.length] in Hlen. lia.
Qed.

(** X4. The fragments [applyConfigChange] hands to the decoder are never
    none, and joined again by the separator line they are the manifest:
    splitting loses and adds no text. *)
Theorem Split_separator_join (deploymentYAML : string) :
  strings.Split deploymentYAML separator <> [] /\
  String.concat separator (strings.Split deploymentYAML separator) = deploymentYAML.
Proof.
  assert (Hsep : separator <> "") by discriminate.
  assert (Hsplit : strings.Split deploymentYAML separator
                   = strings.splitFrom separator deploymentYAML 0 "") by reflexivity.
  rewrite Hsplit. split; [apply splitFrom_nonempty |].
  apply (splitFrom_join separator Hsep (String.length deploymentYAML)). apply Nat.le_refl.
Qed.

(** ** Lookups *)

Lemma lookup_store_same (k : string) (v : Value) (m : Object) :
  lookup k (store k v m) = Some v.
Proof.
  induction m as [| [k' v'] m IH]; cbn [store lookup].
  - rewrite String.eqb_refl. reflexivity.
  - destruct (String.eqb k k') eqn:Hk; cbn [lookup]; rewrite ?String.eqb_refl, ?Hk;
      [reflexivity | exact IH].
Qed.

Lemma lookup_store_other (k k' : string) (v : Value) (m : Object) :
  String.eqb k k' = false -> lookup k (store k' v m) = lookup k m.
Proof.
  intros Hk. induction m as [| [k0 v0] m IH]; cbn [store lookup].
  - rewrite Hk. reflexivity.
  - destruct (String.eqb k' k0) eqn:Hk0; cbn [lookup].
    + apply String.eqb_eq in Hk0. subst k0. rewrite Hk. reflexivity.
    + destruct (String.eqb k k0); [reflexivity | exact IH].
Qed.

(** The object [getSVCPort] looks up carries the name and the namespace
    it was given, also when one of them is empty. *)
Lemma lookup_key (name namespace : string) :
  GetName (SetNamespace (SetName unstructured.empty name) namespace) = name /\
  GetNamespace (SetNamespace (SetName unstructured.empty name) namespace) = namespace.
Proof.
  unfold SetName, SetNamespace.
  destruct (String.eqb name "") eqn:Hn; destruct (String.eqb namespace "") eqn:Hs;
    try (apply String.eqb_eq in Hn; subst name);
    try (apply String.eqb_eq in Hs; subst namespace);
    split; reflexivity.
Qed.

Section Lookups.
Context {E : Env}.

Lemma getResource_cases (res : schema.GroupVersionResource) (data : Unstructured)
    (st : St) :
  exists r st1 e1 rest,
    getResource res data st = (Done r, st1) /\
    trace st1 = (trace st ++ e1 :: rest)%list /\
    call e1 = CallGet res (Some (GetNamespace data)) (GetName data) /\
    match failure e1 with
    | None => rest = [] /\ exists u, r = inl u
    | Some _ =>
        exists e2,
          rest = [e2] /\ call e2 = CallGet res None (GetName data) /\
          match failure e2 with
          | None => exists u, r = inl u
          | Some cause =>
              r = inr (withMessage cause
                "unable to retrieve the resource with a matching name, while attempting to apply the config")
          end
    end.
Proof.
  unfold getResource, bind, Get. rewrite record_run. cbn [fst snd world trace].
  destruct (fst (clusterGet res (Some (GetNamespace data)) (GetName data) (world st)))
    as [u | err1] eqn:H1.
  - eexists _, _, _, []. split; [reflexivity |]. split; [reflexivity |].
    split; [reflexivity |]. cbn [failure errOf].
    split; [reflexivity |]. exists u. reflexivity.
  - rewrite record_run. cbn [fst snd world trace].
    destruct (fst (clusterGet res None (GetName data) _)) as [u | cause] eqn:H2.
    + eexists _, _, _, [_]. split; [reflexivity |].
      split; [rewrite <- app_assoc; reflexivity |]. split; [reflexivity |].
      cbn [failure errOf].
      eexists. split; [reflexivity |]. split; [reflexivity |].
      cbn [failure errOf]. exists u. reflexivity.
    + eexists _, _, _, [_]. split; [reflexivity |].
      split; [rewrite <- app_assoc; reflexivity |]. split; [reflexivity |].
      cbn [failure errOf].
      eexists. split; [reflexivity |]. split; [reflexivity |].
      cbn [failure errOf]. reflexivity.
Qed.

(** X5. [getResource] always returns.  It asks for the object in the
    object's namespace first; only when that fails it asks again without
    a namespace; it makes no other call.  It returns an error only when
    both calls failed, and then the error wraps the error of the second
    call: the error of the first is dropped. *)
Theorem getResource_fallback (res : schema.GroupVersionResource) (data : Unstructured)
    (st : St) :
  exists r st1 e1 rest,
    getResource res data st = (Done r, st1) /\
    trace st1 = (trace st ++ e1 :: rest)%list /\
    call e1 = CallGet res (Some (GetNamespace data)) (GetName data) /\
    match failure e1 with
    | None => rest = [] /\ exists u, r = inl u
    | Some _ =>
        exists e2,
          rest = [e2] /\ call e2 = CallGet res None (GetName data) /\
          match failure e2 with
          | None => exists u, r = inl u
          | Some cause =>
              r = inr (withMessage cause
                "unable to retrieve the resource with a matching name, while attempting to apply the config")
          end
    end.
Proof. apply getResource_cases. Qed.

Lemma confined_getResource (res : schema.GroupVersionResource) (data : Unstructured) :
  confined readCall (getResource res data).
Proof.
  unfold getResource. apply confined_bind.
  - apply confined_record. intros r. reflexivity.
  - intros [u | err]; [apply confined_ret |].
    apply confined_bind; [apply confined_record; intros r; reflexivity |].
    intros [u | err2]; apply confined_ret.
Qed.

(** X7. [getSVCPort] only reads: it leaves the event channel alone and calls
    nothing but Get.  Its first call asks for the service of the given
    name in the given namespace.  When it returns an error, it has made
    exactly one more call, the Get of the same name without a namespace,
    and the text of the error is the two wrapping messages followed by
    the text of the error that this second call returned. *)
Theorem getSVCPort_reads_the_service (svc namespace : string) (st : St) :
  confined readCall (getSVCPort svc namespace) /\
  exists e1 rest,
    trace (snd (getSVCPort svc namespace st)) = (trace st ++ e1 :: rest)%list /\
    call e1 = CallGet servicesResource (Some namespace) svc /\
    forall err,
      fst (getSVCPort svc namespace st) = Done (inr err) ->
      exists e2 cause,
        rest = [e2] /\
        call e2 = CallGet servicesResource None svc /\
        failure e2 = Some cause /\
        Error err =
          "unable to get service details: unable to retrieve the resource with a matching name, while attempting to apply the config: "
          ++ Error cause.
Proof.
  destruct (lookup_key svc namespace) as [Hname Hns].
  destruct (getResource_cases servicesResource
              (SetNamespace (SetName unstructured.empty svc) namespace) st)
    as [r [st1 [e1 [rest [Hrun [Htr [Hcall Hfail]]]]]]].
  rewrite Hname, Hns in Hcall. rewrite Hname in Hfail.
  assert (Hstate : snd (getSVCPort svc namespace st) = st1).
  { unfold getSVCPort. rewrite (bind_done _ _ _ _ _ Hrun).
    destruct r as [u | err]; [| reflexivity].
    destruct (lookup "spec" u) as [[| b | n | bits | s | l | spec] |]; reflexivity. }
  split.
  - unfold getSVCPort. apply confined_bind; [apply confined_getResource |].
    intros [u | err]; [| apply confined_ret].
    destruct (lookup "spec" u) as [[| b | n | bits | s | l | spec] |];
      first [apply confined_ret | apply confined_panic].
  - exists e1, rest. rewrite Hstate. split; [exact Htr |]. split; [exact Hcall |].
    intros err Herr. unfold getSVCPort in Herr. rewrite (bind_done _ _ _ _ _ Hrun) in Herr.
    destruct r as [u | err0].
    + destruct (lookup "spec" u) as [[| b | n | bits | s | l | spec] |];
        cbn in Herr; discriminate Herr.
    + cbn in Herr. injection Herr as <-.
      destruct (failure e1) as [err1 |]; [| destruct Hfail as [_ [u Hu]]; discriminate Hu].
      destruct Hfail as [e2 [Hrest [Hcall2 Hfail2]]].
      destruct (failure e2) as [cause |] eqn:Hf2;
        [| destruct Hfail2 as [u Hu]; discriminate Hu].
      injection Hfail2 as ->. exists e2, cause.
      split; [exact Hrest |]. split; [exact Hcall2 |]. split; [exact Hf2 |].
      reflexivity.
Qed.

End Lookups.

(** ** The Port Extractor on malformed objects *)

Section PortEdges.
Context {E : Env}.

(** X8. When the object the lookup returns has no [spec] that is a map, the
    unchecked type assertion of [getSVCPort] panics: no port list and no
    error is returned. *)
Theorem getSVCPort_panics_without_spec (svc namespace : string) (service : Unstructured)
    (st st1 : St) :
  getResource servicesResource
    (SetNamespace (SetName unstructured.empty svc) namespace) st
    = (Done (inl service), st1) ->
  (forall spec, lookup "spec" service <> Some (VMap spec)) ->
  exists msg, getSVCPort svc namespace st = (Panic msg, st1).
Proof.
  intros Hget Hspec. unfold getSVCPort. rewrite (bind_done _ _ _ _ _ Hget).
  destruct (lookup "spec" service) as [[| b | n | bits | s | l | spec] |];
    try (eexists; reflexivity).
  exfalso. exact (Hspec spec eq_refl).
Qed.

Lemma nodePortsOf_acc (ports : list Value) :
  forall acc, nodePortsOf ports acc = (acc ++ nodePortsOf ports [])%list.
Proof.
  induction ports as [| port rest IH]; intros acc; cbn [nodePortsOf].
  - rewrite app_nil_r. reflexivity.
  - destruct (lookup "nodePort" _) as [np |]; [| apply IH].
    rewrite IH. rewrite (IH ([] ++ _)%list). rewrite app_assoc. reflexivity.
Qed.

(** X9. A node port that is not an integer is not an error: the loop of
    [getSVCPort] reports it as port 0. *)
Theorem nodePortsOf_ill_typed_is_zero (ports : list Value) :
  Forall nodePortIllTyped ports ->
  nodePortsOf ports [] = repeat 0%Z (List.length ports).
Proof.
  induction ports as [| port rest IH]; intros H; [reflexivity |].
  inversion H as [| ? ? [p [v [-> [Hv Hn]]]] Hrest]; subst.
  cbn [nodePortsOf List.length repeat]. rewrite Hv.
  rewrite nodePortsOf_acc, (IH Hrest).
  destruct v as [| b | n | bits | s | l | m]; try reflexivity.
  exfalso. exact (Hn n eq_refl).
Qed.

End PortEdges.

Lemma getSVCPort_panics_without_spec_witness :
  exists msg,
    getSVCPort (E := fake.env plainConfig) "web-svc" "emojivoto"
      (fake.start plainConfig bareCluster)
    = (Panic msg,
       snd (getResource (E := fake.env plainConfig) servicesResource
              (SetNamespace (SetName unstructured.empty "web-svc") "emojivoto")
              (fake.start plainConfig bareCluster))).
Proof.
  apply (getSVCPort_panics_without_spec (E := fake.env plainConfig) "web-svc" "emojivoto"
           bareService).
  - vm_compute. reflexivity.
  - intros spec H. vm_compute in H. discriminate H.
Defined.

Lemma nodePortsOf_ill_typed_is_zero_witness :
  nodePortsOf oddPorts [] = [0%Z; 0%Z].
Proof.
  apply (nodePortsOf_ill_typed_is_zero oddPorts).
  repeat constructor; eexists _, _; (split; [reflexivity |]);
    (split; [reflexivity |]); intros n H; discriminate H.
Defined.

(** ** Labelling a namespace for injection *)

Section Labelling.
Context {E : Env}.

Lemma confined_updateResource (res : schema.GroupVersionResource) (data : Unstructured) :
  confined labelCall (updateResource res data).
Proof.
  unfold updateResource. apply confined_bind.
  - apply confined_record. intros r. right. left. reflexivity.
  - intros [err |]; [| apply confined_ret].
    apply confined_bind; [apply confined_record; intros r; right; left; reflexivity |].
    intros [err2 |]; apply confined_ret.
Qed.

Lemma confined_executeTemplate (P : Entry -> Prop) (username namespace templateName : string) :
  confined P (executeTemplate username namespace templateName).
Proof.
  unfold executeTemplate. apply confined_bind; [apply confined_lift |].
  intros [tmpl | err]; [| apply confined_ret].
  destruct (template_Execute tmpl _); apply confined_ret.
Qed.

Lemma confined_createNamespace (namespace : string) :
  confined labelCall (createNamespace namespace).
Proof.
  unfold createNamespace. apply confined_bind; [apply confined_executeTemplate |].
  intros [y [err |]]; [apply confined_ret |].
  apply (confined_weaken (batchCall false)); [| apply confined_applyConfigChange].
  intros e He. right. right. exact He.
Qed.

Lemma confined_getResource_label (res : schema.GroupVersionResource) (data : Unstructured) :
  confined labelCall (getResource res data).
Proof.
  apply (confined_weaken readCall); [| apply confined_getResource].
  intros e He. left. exact He.
Qed.

Lemma confined_labelNamespace (namespace : string) :
  confined labelCall (labelNamespaceForAutoInjection namespace).
Proof.
  unfold labelNamespaceForAutoInjection.
  apply confined_bind; [apply confined_getResource_label |].
  intros [ns | err]; [apply confined_updateResource |].
  destruct (strings.HasSuffix _ _); [| apply confined_ret].
  apply confined_bind; [apply confined_createNamespace |].
  intros [err2 |]; [apply confined_ret |].
  apply confined_bind; [apply confined_getResource_label |].
  intros [ns | err3]; [apply confined_updateResource | apply confined_panic].
Qed.

(** X10. Labelling a namespace never deletes anything and leaves the event
    channel alone: its calls are reads, updates and the discovery and
    create calls of creating the namespace.  Whether the namespace is
    missing is read off the text of the lookup error: when that text does
    not end in "not found", the error is returned as it is and nothing is
    created or updated. *)
Theorem labelNamespaceForAutoInjection_confined (namespace : string) :
  confined labelCall (labelNamespaceForAutoInjection namespace) /\
  forall (st st1 : St) (err : error),
    getResource namespacesResource (SetName unstructured.empty namespace) st
      = (Done (inr err), st1) ->
    strings.HasSuffix (Error err) "not found" = false ->
    labelNamespaceForAutoInjection namespace st = (Done (Some err), st1).
Proof.
  split.
  - apply confined_labelNamespace.
  - intros st st1 err Hget Hsuffix. unfold labelNamespaceForAutoInjection.
    rewrite (bind_done _ _ _ _ _ Hget), Hsuffix. reflexivity.
Qed.

(** X11. When the namespace exists, the object sent back to the cluster is
    the one that was read, under the same name and namespace, with its
    annotations replaced: whatever annotations it had, it now has the
    injection annotation and no other. *)
Theorem labelNamespaceForAutoInjection_replaces_annotations
    (namespace : string) (ns : Unstructured) (m : Object) (st st1 : St) :
  getResource namespacesResource (SetName unstructured.empty namespace) st
    = (Done (inl ns), st1) ->
  lookup "metadata" ns = Some (VMap m) ->
  exists e rest data,
    trace (snd (labelNamespaceForAutoInjection namespace st)) = (trace st1 ++ e :: rest)%list /\
    call e = CallUpdate namespacesResource (Some (GetNamespace ns)) data /\
    GetName data = GetName ns /\
    annotationsOf data = Some injectAnnotation.
Proof.
  intros Hget Hmeta. unfold labelNamespaceForAutoInjection.
  rewrite (bind_done _ _ _ _ _ Hget).
  set (data := SetAnnotations ns [("linkerd.io/inject", "enabled")]).
  assert (Hdata : data = store "metadata" (VMap (store "annotations" injectAnnotation m)) ns).
  { unfold data, SetAnnotations, setNested2. rewrite Hmeta. reflexivity. }
  assert (Hns : GetNamespace data = GetNamespace ns).
  { rewrite Hdata. unfold GetNamespace, getNestedString2.
    rewrite lookup_store_same, Hmeta, lookup_store_other by reflexivity. reflexivity. }
  assert (Hname : GetName data = GetName ns).
  { rewrite Hdata. unfold GetName, getNestedString2.
    rewrite lookup_store_same, Hmeta, lookup_store_other by reflexivity. reflexivity. }
  assert (Hann : annotationsOf data = Some injectAnnotation).
  { rewrite Hdata. unfold annotationsOf.
    rewrite lookup_store_same, lookup_store_same. reflexivity. }
  unfold updateResource, bind, Update. rewrite record_run. cbn [fst snd world trace].
  rewrite Hns.
  destruct (fst (clusterUpdate namespacesResource (Some (GetNamespace ns)) data (world st1)))
    as [err |].
  - rewrite record_run. cbn [fst snd world trace].
    destruct (fst (clusterUpdate namespacesResource None data _)) as [err2 |];
      cbn [snd trace]; eexists _, [_], data; rewrite <- app_assoc;
      (split; [reflexivity |]); (split; [reflexivity |]); split; assumption.
  - cbn [snd trace]. eexists _, [], data.
    split; [reflexivity |]. split; [reflexivity |]. split; assumption.
Qed.

(** X12. When the namespace is missing and has been created without error,
    but the second lookup fails as well, the function does not return the
    error: it panics on the nil object it reads the name of. *)
Theorem labelNamespaceForAutoInjection_panics_on_second_failure
    (namespace : string) (st st1 st2 st3 : St) (err err2 : error) :
  getResource namespacesResource (SetName unstructured.empty namespace) st
    = (Done (inr err), st1) ->
  strings.HasSuffix (Error err) "not found" = true ->
  createNamespace namespace st1 = (Done None, st2) ->
  getResource namespacesResource (SetName unstructured.empty namespace) st2
    = (Done (inr err2), st3) ->
  exists msg, labelNamespaceForAutoInjection namespace st = (Panic msg, st3).
Proof.
  intros Hget Hsuffix Hcreate Hget2. unfold labelNamespaceForAutoInjection.
  rewrite (bind_done _ _ _ _ _ Hget), Hsuffix.
  rewrite (bind_done _ _ _ _ _ Hcreate).
  rewrite (bind_done _ _ _ _ _ Hget2). eexists. reflexivity.
Qed.

End Labelling.

Lemma labelNamespaceForAutoInjection_confined_witness :
  fst (labelNamespaceForAutoInjection (E := unreachableEnv) "foo" unreachableStart)
  = Done (Some (errors.Wrap (errorString "dial tcp: connection refused")
     "unable to retrieve the resource with a matching name, while attempting to apply the config")).
Proof.
  rewrite (proj2 (labelNamespaceForAutoInjection_confined (E := unreachableEnv) "foo")
             unreachableStart
             (snd (getResource (E := unreachableEnv) namespacesResource
                     (SetName unstructured.empty "foo") unreachableStart))
             (errors.Wrap (errorString "dial tcp: connection refused")
                "unable to retrieve the resource with a matching name, while attempting to apply the config")).
  - reflexivity.
  - vm_compute. reflexivity.
  - vm_compute. reflexivity.
Defined.

Lemma labelNamespaceForAutoInjection_replaces_annotations_witness :
  exists e rest data,
    trace (snd (labelNamespaceForAutoInjection (E := fake.env plainConfig) "foo"
                  (fake.start plainConfig annotatedCluster)))
    = (trace (snd (getResource (E := fake.env plainConfig) namespacesResource
                     (SetName unstructured.empty "foo")
                     (fake.start plainConfig annotatedCluster))) ++ e :: rest)%list /\
    call e = CallUpdate namespacesResource (Some (GetNamespace annotatedNamespace)) data /\
    GetName data = GetName annotatedNamespace /\
    annotationsOf data = Some injectAnnotation.
Proof.
  apply (labelNamespaceForAutoInjection_replaces_annotations (E := fake.env plainConfig)
           "foo" annotatedNamespace
           [("name", VString "foo"); ("annotations", VMap [("owner", VString "team-a")])]).
  - vm_compute. reflexivity.
  - reflexivity.
Defined.

Lemma labelNamespaceForAutoInjection_panics_on_second_failure_witness :
  exists msg,
    fst (labelNamespaceForAutoInjection (E := fake.env plainConfig) "foo"
           (fake.start plainConfig emptyTemplateCluster)) = Panic msg.
Proof.
  destruct (labelNamespaceForAutoInjection_panics_on_second_failure
              (E := fake.env plainConfig) "foo"
              (fake.start plainConfig emptyTemplateCluster)
              (fake.state plainConfig emptyTemplateCluster
                 (trace (snd (getResource (E := fake.env plainConfig) namespacesResource
                                (SetName unstructured.empty "foo")
                                (fake.start plainConfig emptyTemplateCluster)))) [] 0)
              (fake.state plainConfig emptyTemplateCluster
                 (trace (snd (getResource (E := fake.env plainConfig) namespacesResource
                                (SetName unstructured.empty "foo")
                                (fake.start plainConfig emptyTemplateCluster)))) [] 0)
              (snd (getResource (E := fake.env plainConfig) namespacesResource
                      (SetName unstructured.empty "foo")
                      (fake.state plainConfig emptyTemplateCluster
                         (trace (snd (getResource (E := fake.env plainConfig)
                                        namespacesResource
                                        (SetName unstructured.empty "foo")
                                        (fake.start plainConfig emptyTemplateCluster))))
                         [] 0)))
              (errors.Wrap (fake.notFound "foo")
                 "unable to retrieve the resource with a matching name, while attempting to apply the config")
              (errors.Wrap (fake.notFound "foo")
                 "unable to retrieve the resource with a matching name, while attempting to apply the config"))
    as [msg Hmsg]; try (vm_compute; reflexivity).
  exists msg. rewrite Hmsg. reflexivity.
Defined.

(** ** The install and what the goroutines emit *)

Section Goroutines.
Context {E : Env} {R : Registry}.
Variable iClient : Client.

Lemma confined_executeInstall (arReq : meshes.ApplyRuleRequest) :
  confined (batchCall (meshes.DeleteOp arReq)) (executeInstall iClient arReq).
Proof.
  unfold executeInstall.
  apply confined_bind; [apply confined_lift | intros tmp].
  apply confined_bind; [apply confined_lift | intros now].
  apply confined_bind; [apply confined_lift | intros [err |]]; [apply confined_ret |].
  apply confined_bind; [apply confined_lift | intros [err |]]; [apply confined_ret |].
  apply confined_bind; [apply confined_lift | intros [[out er] [err |]]];
    [apply confined_ret |].
  apply confined_bind; [apply confined_lift | intros [[yaml er2] [err |]]];
    [apply confined_ret |].
  destruct (negb (String.eqb er2 "")); [apply confined_ret |].
  apply confined_bind; [apply confined_applyConfigChange | intros [err |]];
    [apply confined_ret |].
  apply confined_bind; [apply confined_lift | intros [err |]]; apply confined_ret.
Qed.


Lemma emitsOne_chanSend (ev : meshes.EventsResponse) :
  emitsOne (meshes.evOperationId ev) (chanSend ev).
Proof.
  intros st o st1 H. unfold chanSend in H.
  destruct (Nat.ltb (List.length (eventChan st)) eventChanCap) eqn:Hroom;
    inversion H; subst; cbn [slept eventChan].
  - split; [reflexivity |]. exists ev. split; reflexivity.
  - split; [reflexivity |]. split; [reflexivity |]. apply Nat.ltb_ge. exact Hroom.
Qed.

Lemma emitsOne_bind {A} (P : Entry -> Prop) (id : string) (m : M A) (k : A -> M unit) :
  confined P m -> (forall a, emitsOne id (k a)) -> emitsOne id (bind m k).
Proof.
  intros Hm Hk st o st2 H. unfold bind in H.
  destruct (m st) as [[a | msg |] st1] eqn:Hrun;
    destruct (Hm _ _ _ Hrun) as [Hb [Hc [Hs _]]].
  - destruct (Hk a _ _ _ H) as [Hs2 Ho]. split; [congruence |].
    rewrite Hc in Ho. exact Ho.
  - inversion H; subst. split; [exact Hs | exact Hc].
  - contradiction.
Qed.

End Goroutines.

Section Emission.
Context {E : Env} {R : Registry}.
Variable iClient : Client.

Lemma confined_getSVCPort (svc namespace : string) :
  confined readCall (getSVCPort svc namespace).
Proof.
  unfold getSVCPort. apply confined_bind; [apply confined_getResource |].
  intros [u | err]; [| apply confined_ret].
  destruct (lookup "spec" u) as [[| b | n | bits | s | l | spec] |];
    first [apply confined_ret | apply confined_panic].
Qed.

(** X14. Each goroutine an operation starts puts at most one event on the
    channel and never sleeps: when it ends normally it has put exactly
    one event there, carrying the operation id of the request; when it
    is blocked the channel is full and as it was; when it panics the
    channel is as it was. *)
Theorem goroutines_emit_one_event (arReq : meshes.ApplyRuleRequest) (v : Vars) :
  emitsOne (meshes.OperationId arReq) (installGoroutine iClient arReq) /\
  emitsOne (meshes.OperationId arReq) (sampleGoroutine arReq v).
Proof.
  split.
  - unfold installGoroutine.
    apply (emitsOne_bind (batchCall (meshes.DeleteOp arReq)));
      [apply confined_executeInstall |].
    intros [err |]; apply (emitsOne_chanSend (event arReq _ _ _)).
  - unfold sampleGoroutine.
    apply (emitsOne_bind labelCall).
    { destruct (negb (meshes.DeleteOp arReq));
        [apply confined_labelNamespace | apply confined_ret]. }
    intros [err |]; [apply (emitsOne_chanSend (event arReq _ _ _)) |].
    apply (emitsOne_bind (batchCall (meshes.DeleteOp arReq)));
      [apply confined_applyConfigChange |].
    intros [err |]; [apply (emitsOne_chanSend (event arReq _ _ _)) |].
    destruct (meshes.DeleteOp arReq);
      [apply (emitsOne_chanSend (event arReq _ _ _)) |].
    apply (emitsOne_bind readCall); [apply confined_getSVCPort |].
    intros [ports | err]; apply (emitsOne_chanSend (event arReq _ _ _)).
Qed.

(** ** The replies of ApplyOperation *)

Lemma confined_startSample (P : Entry -> Prop) (arReq : meshes.ApplyRuleRequest)
    (c : M (Vars + error)) :
  confined P c -> confined P (startSample arReq c).
Proof.
  intros Hc. unfold startSample. apply confined_bind; [exact Hc |].
  intros [v | err]; apply confined_ret.
Qed.

Lemma confined_fallthrough (P : Entry -> Prop) (c : M (Vars + error))
    (next : Vars -> M (Vars + error)) :
  confined P c -> (forall v, confined P (next v)) -> confined P (fallthrough c next).
Proof.
  intros Hc Hnext. unfold fallthrough. apply confined_bind; [exact Hc |].
  intros [v | err]; [apply Hnext | apply confined_ret].
Qed.

Lemma confined_caseBooksApp (P : Entry -> Prop) (v : Vars) : confined P (caseBooksApp v).
Proof.
  unfold caseBooksApp. apply confined_bind; [apply confined_lift |].
  intros [y | err]; apply confined_ret.
Qed.

Lemma confined_caseHTTPBinApp (P : Entry -> Prop) (arReq : meshes.ApplyRuleRequest)
    (op : supportedOperation) (v : Vars) : confined P (caseHTTPBinApp arReq op v).
Proof.
  unfold caseHTTPBinApp. destruct (String.eqb (appName v) ""); [| apply confined_ret].
  apply confined_bind; [apply confined_executeTemplate |].
  intros [y [err |]]; apply confined_ret.
Qed.

Lemma confined_caseIstioBookInfoApp (P : Entry -> Prop) (arReq : meshes.ApplyRuleRequest)
    (op : supportedOperation) (v : Vars) : confined P (caseIstioBookInfoApp arReq op v).
Proof.
  unfold caseIstioBookInfoApp. destruct (String.eqb (appName v) ""); [| apply confined_ret].
  apply confined_bind; [apply confined_executeTemplate |].
  intros [y [err |]]; apply confined_ret.
Qed.

Lemma confined_caseEmojiVoto (P : Entry -> Prop) (v : Vars) : confined P (caseEmojiVoto v).
Proof.
  unfold caseEmojiVoto. destruct (String.eqb (appName v) ""); [| apply confined_ret].
  apply confined_bind; [apply confined_lift |].
  intros [y | err]; apply confined_ret.
Qed.

Lemma confined_nothing {A} (m : M A) (st : St) :
  confined (fun _ => False) m -> trace (snd (m st)) = trace st.
Proof.
  intros Hm. destruct (m st) as [o st1] eqn:Hrun.
  destruct (Hm _ _ _ Hrun) as [_ [_ [_ [new [Ht Hall]]]]]. cbn [snd].
  destruct new as [| e new]; [rewrite app_nil_r in Ht; exact Ht |].
  inversion Hall; contradiction.
Qed.

(** X15. [ApplyOperation] itself never puts an event on the channel, never
    sleeps and is never blocked, whatever the request; and it calls the
    cluster for the custom operation only: for every other operation
    name the trace of calls is the same after the reply as before. *)
Theorem ApplyOperation_replies_without_events (arReq : option meshes.ApplyRuleRequest)
    (st : St) :
  confined (fun _ => True) (ApplyOperation iClient arReq) /\
  (forall req, arReq = Some req -> meshes.OpName req <> customOpCommand ->
               trace (snd (ApplyOperation iClient arReq st)) = trace st).
Proof.
  split.
  - unfold ApplyOperation. destruct arReq as [req |]; [| apply confined_ret].
    destruct (lookupOp _ _) as [op |]; [| apply confined_ret].
    destruct (_ && _); [apply confined_ret |].
    destruct (String.eqb _ customOpCommand).
    { apply confined_bind.
      - apply (confined_weaken (batchCall (meshes.DeleteOp req)));
          [intros; exact I | apply confined_applyConfigChange].
      - intros [err |]; apply confined_ret. }
    repeat (match goal with
            | |- confined _ (if ?c then _ else _) => destruct c
            end);
      try apply confined_ret;
      apply confined_startSample; repeat apply confined_fallthrough; intros;
      auto using confined_caseBooksApp, confined_caseHTTPBinApp,
                 confined_caseIstioBookInfoApp, confined_caseEmojiVoto.
  - intros req -> Hname. apply String.eqb_neq in Hname.
    apply confined_nothing. unfold ApplyOperation.
    destruct (lookupOp _ _) as [op |]; [| apply confined_ret].
    rewrite Hname. cbn [andb].
    repeat (match goal with
            | |- confined _ (if ?c then _ else _) => destruct c
            end);
      try apply confined_ret;
      apply confined_startSample; repeat apply confined_fallthrough; intros;
      auto using confined_caseBooksApp, confined_caseHTTPBinApp,
                 confined_caseIstioBookInfoApp, confined_caseEmojiVoto.
Qed.

(** X16. The custom operation is applied before the reply: when the batch
    made of the request's body returns, its error is the error of the
    reply, the reply acknowledges the operation id when there is none,
    the state is the one the batch left, and no goroutine is started. *)
Theorem ApplyOperation_custom_is_synchronous
    (arReq : meshes.ApplyRuleRequest) (op : supportedOperation) (st st1 : St)
    (err : option error) :
  lookupOp (meshes.OpName arReq) supportedOps = Some op ->
  meshes.OpName arReq = customOpCommand ->
  meshes.CustomBody arReq <> "" ->
  applyConfigChange (meshes.CustomBody arReq) (meshes.Namespace arReq)
    (meshes.DeleteOp arReq) st = (Done err, st1) ->
  ApplyOperation iClient (Some arReq) st
  = (Done (match err with
           | Some e => inr e
           | None => inl (acknowledge arReq)
           end, None), st1).
Proof.
  intros Hop Hname Hbody Hrun. apply String.eqb_neq in Hbody.
  unfold ApplyOperation. rewrite Hop, Hname, String.eqb_refl, Hbody. cbn [andb].
  rewrite (bind_done _ _ _ _ _ Hrun). destruct err; reflexivity.
Qed.

(** X17. A key of the registry for which the switch has no case is not
    carried out: the reply is the error "please select a valid
    operation", nothing is started and the state is untouched. *)
Theorem ApplyOperation_registered_without_case
    (arReq : meshes.ApplyRuleRequest) (op : supportedOperation) (st : St) :
  lookupOp (meshes.OpName arReq) supportedOps = Some op ->
  ~ In (meshes.OpName arReq) switchCases ->
  ApplyOperation iClient (Some arReq) st
  = (Done (inr (errorString "please select a valid operation"), None), st).
Proof.
  intros Hop Hcase. unfold ApplyOperation. rewrite Hop.
  unfold switchCases in Hcase. cbn [In] in Hcase.
  repeat match goal with
         | |- context [String.eqb (meshes.OpName arReq) ?c] =>
             let H := fresh "Hc" in
             destruct (String.eqb (meshes.OpName arReq) c) eqn:H;
             [apply String.eqb_eq in H; exfalso; apply Hcase; rewrite H; tauto |]
         end.
  reflexivity.
Qed.

End Emission.

Lemma ApplyOperation_replies_without_events_witness :
  trace (snd (ApplyOperation (E := fake.env plainConfig) (R := fake.registry) fake.client
                (Some installRequest) (fake.start plainConfig fake.cluster0)))
  = [].
Proof.
  apply (proj2 (ApplyOperation_replies_without_events (E := fake.env plainConfig)
                  (R := fake.registry) fake.client (Some installRequest)
                  (fake.start plainConfig fake.cluster0)) installRequest).
  - reflexivity.
  - discriminate.
Defined.

Lemma ApplyOperation_custom_is_synchronous_witness :
  fst (ApplyOperation (E := fake.env plainConfig) (R := fake.registry) fake.client
         (Some customRequest) (fake.start plainConfig guardedSecond))
  = Done (inr (StatusError StatusReasonForbidden "cm2 is forbidden"), None).
Proof.
  rewrite (ApplyOperation_custom_is_synchronous (E := fake.env plainConfig)
             (R := fake.registry) fake.client customRequest
             {| name := "Custom YAML"; opType := 4; templateName := "" |}
             (fake.start plainConfig guardedSecond)
             (snd (applyConfigChange (E := fake.env plainConfig) threeConfigMaps "ns1" false
                     (fake.start plainConfig guardedSecond)))
             (Some (StatusError StatusReasonForbidden "cm2 is forbidden"))).
  - reflexivity.
  - reflexivity.
  - reflexivity.
  - discriminate.
  - vm_compute. reflexivity.
Defined.

Lemma ApplyOperation_registered_without_case_witness :
  ApplyOperation (E := fake.env plainConfig) (R := staleRegistry) fake.client
    (Some sockShopRequest) (fake.start plainConfig fake.cluster0)
  = (Done (inr (errorString "please select a valid operation"), None),
     fake.start plainConfig fake.cluster0).
Proof.
  apply (ApplyOperation_registered_without_case (E := fake.env plainConfig)
           (R := staleRegistry) fake.client sockShopRequest
           {| name := "Sock Shop"; opType := 1; templateName := "" |}).
  - reflexivity.
  - cbn. intros H. repeat (destruct H as [H | H]; [discriminate H |]). exact H.
Defined.

(** ** The registry and the operations on offer *)

Lemma lookupOp_none (k : string) (m : list (string * supportedOperation)) :
  lookupOp k m = None <-> ~ In k (map fst m).
Proof.
  induction m as [| [k' v] m IH]; cbn [lookupOp map In fst].
  - split; [intros _ H; exact H | reflexivity].
  - destruct (String.eqb k k') eqn:Hk.
    + apply String.eqb_eq in Hk. subst k'. split; [discriminate |].
      intros H. exfalso. apply H. left. reflexivity.
    + apply String.eqb_neq in Hk. rewrite IH. split.
      * intros H [Heq | Hin]; [apply Hk; symmetry; exact Heq | exact (H Hin)].
      * intros H Hin. apply H. right. exact Hin.
Qed.

Section Offer.
Context {E : Env} {R : Registry}.
Variable iClient : Client.

(** X18. The operations [SupportedOperations] lists and the ones
    [ApplyOperation] knows are the same, in whatever order the map is
    walked: an operation name is the key of a listed operation exactly
    when the registry check of [ApplyOperation] finds it, and a name that
    is not listed is turned down as not a valid operation name. *)
Theorem SupportedOperations_lists_the_registry
    (visit : list (string * supportedOperation)) (arReq : meshes.ApplyRuleRequest)
    (st : St) :
  (forall kv, In kv visit <-> In kv supportedOps) ->
  (In (meshes.OpName arReq) (map Key (SupportedOperations visit)) <->
   exists op, lookupOp (meshes.OpName arReq) supportedOps = Some op) /\
  (~ In (meshes.OpName arReq) (map Key (SupportedOperations visit)) ->
   ApplyOperation iClient (Some arReq) st
   = (Done (inr (errorString
                   ("operation id: " ++ meshes.OperationId arReq ++ ", error: "
                    ++ meshes.OpName arReq ++ " is not a valid operation name")), None),
      st)).
Proof.
  intros Hvisit.
  assert (Hkeys : forall k, In k (map Key (SupportedOperations visit))
                            <-> In k (map fst supportedOps)).
  { intros k. unfold SupportedOperations. rewrite map_map. cbn [Key].
    rewrite !in_map_iff. split; intros [kv [Hk Hin]]; exists kv;
      (split; [exact Hk | apply Hvisit; exact Hin]). }
  split.
  - rewrite Hkeys. split.
    + intros Hin. destruct (lookupOp (meshes.OpName arReq) supportedOps) as [op |] eqn:Hop;
        [exists op; reflexivity |].
      apply lookupOp_none in Hop. contradiction.
    + intros [op Hop] . destruct (in_dec string_dec (meshes.OpName arReq)
                                    (map fst supportedOps)) as [Hin | Hnot]; [exact Hin |].
      apply lookupOp_none in Hnot. congruence.
  - intros Hnot. rewrite Hkeys in Hnot. apply lookupOp_none in Hnot.
    unfold ApplyOperation. rewrite Hnot. reflexivity.
Qed.

End Offer.

Lemma SupportedOperations_lists_the_registry_witness :
  ApplyOperation (E := fake.env plainConfig) (R := fake.registry) fake.client
    (Some unknownRequest) (fake.start plainConfig fake.cluster0)
  = (Done (inr (errorString
             "operation id: op-7, error: install_everything is not a valid operation name"),
           None),
     fake.start plainConfig fake.cluster0).
Proof.
  apply (proj2 (SupportedOperations_lists_the_registry (E := fake.env plainConfig)
                  (R := fake.registry) fake.client
                  (rev (supportedOps (Registry := fake.registry))) unknownRequest
                  (fake.start plainConfig fake.cluster0)
                  (fun kv => iff_sym (in_rev _ kv)))).
  cbn. intros H. repeat (destruct H as [H | H]; [discriminate H |]). exact H.
Defined.

(** ** Delivery in order *)

Section Delivery.
Context {E : Env}.

Lemma StreamEvents_idle (passes : nat) :
  forall (st : St),
    eventChan st = [] ->
    StreamEvents passes st
    = (Done Looping,
       {| world := world st; trace := trace st; eventChan := [];
          slept := (slept st + 500 * Z.of_nat passes)%Z |}).
Proof.
  induction passes as [| n IH]; intros st Hchan.
  - cbn [StreamEvents]. unfold ret. destruct st as [w tr ch sl]. cbn in *. subst ch.
    replace (sl + 0)%Z with sl by lia. reflexivity.
  - cbn [StreamEvents]. unfold bind at 1. unfold streamPass, bind, chanTryRecv.
    rewrite Hchan. unfold Sleep, ret.
    rewrite IH by (cbn [eventChan]; exact Hchan). cbn [world trace slept].
    replace (slept st + 500 + 500 * Z.of_nat n)%Z
      with (slept st + 500 * Z.of_nat (S n))%Z by lia.
    reflexivity.
Qed.

Lemma StreamEvents_delivers (healthy : World -> Prop) (evs : list meshes.EventsResponse) :
  sendsSucceed healthy ->
  forall (extra : nat) (st : St),
    healthy (world st) ->
    eventChan st = evs ->
    StreamEvents (List.length evs + extra) st
    = (Done Looping,
       {| world := delivered evs (world st);
          trace := trace st ++ map sent evs;
          eventChan := [];
          slept := (slept st + 500 * Z.of_nat (List.length evs + extra))%Z |}).
Proof.
  intros Hsend. induction evs as [| ev evs IH]; intros extra st Hw Hchan.
  - cbn [List.length Nat.add map delivered]. rewrite app_nil_r.
    apply StreamEvents_idle. exact Hchan.
  - destruct (Hsend ev (world st) Hw) as [Hok Hw'].
    cbn [List.length Nat.add StreamEvents]. unfold bind at 1.
    unfold streamPass, bind, chanTryRecv, Send. rewrite Hchan, record_run.
    cbn [fst snd world trace eventChan slept]. rewrite Hok.
    unfold Sleep, ret. cbn [world trace eventChan slept].
    rewrite IH by (cbn [world eventChan]; first [exact Hw' | reflexivity]).
    cbn [world trace slept delivered map]. rewrite <- app_assoc.
    replace (slept st + 500 + 500 * Z.of_nat (List.length evs + extra))%Z
      with (slept st + 500 * Z.of_nat (S (List.length evs + extra)))%Z by lia.
    reflexivity.
Qed.

(** X19. While sends succeed, the events waiting in the channel are handed to
    the caller oldest first, one in each pass and each once; the loop
    sleeps 500 milliseconds after every pass, with or without an event,
    and after any number of further passes it is still running on the
    empty channel: it does not return by itself. *)
Theorem StreamEvents_delivers_in_order
    (healthy : World -> Prop) (evs : list meshes.EventsResponse) (extra : nat) (st : St) :
  sendsSucceed healthy ->
  healthy (world st) ->
  eventChan st = evs ->
  StreamEvents (List.length evs + extra) st
  = (Done Looping,
     {| world := delivered evs (world st);
        trace := trace st ++ map sent evs;
        eventChan := [];
        slept := (slept st + 500 * Z.of_nat (List.length evs + extra))%Z |}).
Proof. intros Hsend. apply StreamEvents_delivers. exact Hsend. Qed.

End Delivery.

Lemma StreamEvents_delivers_in_order_witness :
  StreamEvents (E := fake.env plainConfig) 5
    (fake.state plainConfig fake.cluster0 [] [deployedEvent; removedEvent] 0)
  = (Done Looping,
     fake.state plainConfig fake.cluster0
       [{| call := CallSend deployedEvent; subject := None; failure := None |};
        {| call := CallSend removedEvent; subject := None; failure := None |}]
       [] 2500).
Proof.
  apply (StreamEvents_delivers_in_order (E := fake.env plainConfig)
           (fun w => fake.streamBroken w = false) [deployedEvent; removedEvent] 3
           (fake.state plainConfig fake.cluster0 [] [deployedEvent; removedEvent] 0)).
  - intros ev w Hw. cbn. rewrite Hw. split; [reflexivity | exact Hw].
  - reflexivity.
  - reflexivity.
Defined.

(** ** Updates *)

Section Updates.
Context {E : Env}.

(** X6. [updateResource] always returns.  It sends the object to the
    object's namespace first and, only when that fails, once more without
    a namespace; it makes no other call.  It fails only when both calls
    failed, with the error of the second call wrapped: the error of the
    first is dropped. *)
Theorem updateResource_fallback (res : schema.GroupVersionResource) (data : Unstructured)
    (st : St) :
  exists r st1 e1 rest,
    updateResource res data st = (Done r, st1) /\
    trace st1 = (trace st ++ e1 :: rest)%list /\
    call e1 = CallUpdate res (Some (GetNamespace data)) data /\
    match failure e1 with
    | None => rest = [] /\ r = None
    | Some _ =>
        exists e2,
          rest = [e2] /\ call e2 = CallUpdate res None data /\
          match failure e2 with
          | None => r = None
          | Some cause =>
              r = Some (withMessage cause
                "unable to update resource with the given name, while attempting to apply the config")
          end
    end.
Proof.
  unfold updateResource, bind, Update. rewrite record_run. cbn [fst snd world trace].
  destruct (fst (clusterUpdate res (Some (GetNamespace data)) data (world st)))
    as [err1 |] eqn:H1.
  - rewrite record_run. cbn [fst snd world trace].
    destruct (fst (clusterUpdate res None data _)) as [cause |] eqn:H2;
      eexists _, _, _, [_]; (split; [reflexivity |]);
      (split; [rewrite <- app_assoc; reflexivity |]); (split; [reflexivity |]);
      cbn [failure]; eexists; (split; [reflexivity |]); (split; [reflexivity |]);
      reflexivity.
  - eexists _, _, _, []. split; [reflexivity |]. split; [reflexivity |].
    split; [reflexivity |]. cbn [failure]. split; reflexivity.
Qed.

End Updates.

(** ** The frames on the executable cluster *)

Lemma applyConfigChange_confined_witness :
  eventChan (snd (applyConfigChange (E := fake.env plainConfig) configMapThenNamespace "foo"
                    true (fake.state plainConfig fooCluster [] [deployedEvent] 0)))
  = [deployedEvent].
Proof.
  exact (proj1 (proj2 (applyConfigChange_confined (E := fake.env plainConfig)
                         configMapThenNamespace "foo" true
                         (fake.state plainConfig fooCluster [] [deployedEvent] 0) _ _
                         (surjective_pairing _)))).
Defined.

Lemma getSVCPort_reads_the_service_witness :
  exists e1 rest,
    trace (snd (getSVCPort (E := fake.env plainConfig) "web-svc" "emojivoto"
                  (fake.start plainConfig fake.cluster0)))
    = ([] ++ e1 :: rest)%list /\
    call e1 = CallGet servicesResource (Some "emojivoto") "web-svc" /\
    exists e2 cause,
      rest = [e2] /\
      call e2 = CallGet servicesResource None "web-svc" /\
      failure e2 = Some cause /\
      Error (errors.Wrapf
               (errors.Wrap (fake.notFound "web-svc")
                  "unable to retrieve the resource with a matching name, while attempting to apply the config")
               "unable to get service details")
      = "unable to get service details: unable to retrieve the resource with a matching name, while attempting to apply the config: "
        ++ Error cause.
Proof.
  destruct (proj2 (getSVCPort_reads_the_service (E := fake.env plainConfig)
                     "web-svc" "emojivoto" (fake.start plainConfig fake.cluster0)))
    as [e1 [rest [Htrace [Hcall Herr]]]].
  exists e1, rest. split; [exact Htrace |]. split; [exact Hcall |].
  apply Herr. vm_compute. reflexivity.
Defined.


Lemma goroutines_emit_one_event_witness :
  exists ev,
    eventChan (snd (installGoroutine (E := fake.env plainConfig) fake.client installRequest
                      (fake.start plainConfig fake.cluster0)))
    = ([] ++ [ev])%list /\
    meshes.evOperationId ev = "op-1".
Proof.
  exact (proj2 (proj1 (goroutines_emit_one_event (E := fake.env plainConfig) fake.client
                         installRequest zeroVars)
                  (fake.start plainConfig fake.cluster0) (Done tt)
                  (snd (installGoroutine (E := fake.env plainConfig) fake.client
                          installRequest (fake.start plainConfig fake.cluster0)))
                  ltac:(vm_compute; reflexivity))).
Defined.
